(** * Travel OS (app.py): a shallow embedding and its specification

    The development follows app.py top to bottom: the domain classes
    [City], [TravelerProfile] and [Transport], the data store [CITIES] and
    [ROUTES], the decision engines [recommend_transport] and [budget_risk],
    and the script body that turns the sidebar inputs into the displayed
    figures.

    Numbers.  Python's [int] is [Z].  Every value the script obtains by a
    true division or from a decimal literal is a Python [float]; the
    operations on those are collected in the class [PyFloat], with two
    instances:
    - [exact]: the rationals [Q], where no operation rounds;
    - [binary64]: IEEE 754 double precision, computed by the Standard
      Library's [SpecFloat], the arithmetic of CPython.
    What depends on no property of the arithmetic (the cost aggregation,
    the insights) is stated for both at once.  The choice of the best
    score and the budget buckets are proved in both.  The score formula
    and the inequality between the scores of the train and the plane at
    every distance are proved in exact arithmetic, and replayed in
    binary64 on the distances of the shipped routes.

    An [int] that meets a [float] in an operation is converted first
    ([of_int]).  The running [score] of [recommend_transport] starts as the
    [int] 0 and stays an [int] under "Comfort" and "Eco" alone; it is kept
    in the float type throughout, where the small integers involved are
    represented exactly.

    Exceptions.  A Python exception is a value [Raise e] of [result]. *)

From Stdlib Require Import ZArith QArith Qabs Qround Lia Lqa.
From Stdlib Require Import Floats.SpecFloat.
From stdpp Require Import base option list sorting strings gmap.

Local Open Scope Z_scope.

(** ** Exceptions *)

Inductive exn : Type :=
  | KeyError (k : string)
  | ValueError
  | IndexError
  | ZeroDivisionError.

Inductive result (A : Type) : Type :=
  | Ok (a : A)
  | Raise (e : exn).

Arguments Ok {A} a.
Arguments Raise {A} e.

#[global] Instance result_ret : MRet result := fun A a => Ok a.
#[global] Instance result_bind : MBind result := fun A B f m =>
  match m with
  | Ok a => f a
  | Raise e => Raise e
  end.

(** [d[k]] on a dict with string keys. *)
Definition getitem {V : Type} (d : gmap string V) (k : string) : result V :=
  match d !! k with
  | Some v => Ok v
  | None => Raise (KeyError k)
  end.

(** [x in l] on a list of strings. *)
Definition contains (x : string) (l : list string) : bool :=
  bool_decide (x ∈ l).

(** ** Float arithmetic *)

Class PyFloat (F : Type) : Type := {
  (** [float(n)], the conversion applied to an [int] operand that meets a
      [float] one *)
  of_int : Z -> F;
  (** the decimal literal [m * 10^-k], as in [0.25 = literal 25 2] *)
  literal : Z -> nat -> F;
  fadd : F -> F -> F;
  fsub : F -> F -> F;
  fmul : F -> F -> F;
  (** [x / y] for [y] that is not zero *)
  fdiv : F -> F -> F;
  (** [x < y] and [x <= y] *)
  flt : F -> F -> bool;
  fle : F -> F -> bool;
  (** [x == 0] *)
  fis_zero : F -> bool;
  (** [round(x, ndigits)] *)
  fround : F -> nat -> F
}.

Declare Scope py_scope.
Delimit Scope py_scope with py.
Infix "+" := fadd : py_scope.
Infix "-" := fsub : py_scope.
Infix "*" := fmul : py_scope.
Infix "/" := fdiv : py_scope.
Infix "<?" := flt : py_scope.
Infix "<=?" := fle : py_scope.

(** [x / y] where [y] is not a literal: Python raises when [y] is zero. *)
Definition truediv {F} `{PyFloat F} (x y : F) : result F :=
  if fis_zero y then Raise ZeroDivisionError else Ok (x / y)%py.

(** *** Exact arithmetic *)

(** Rounding to the nearest integer, halves to the even neighbour. *)
Definition round_half_even (q : Q) : Z :=
  let n := Qfloor q in
  match Qcompare (q - inject_Z n) (1 # 2) with
  | Lt => n
  | Gt => n + 1
  | Eq => if Z.even n then n else n + 1
  end.

(** [10^k] as a denominator. *)
Definition pow10 (k : nat) : positive := Nat.iter k (Pos.mul 10) 1%positive.

Definition Qltb (x y : Q) : bool :=
  match Qcompare x y with Lt => true | _ => false end.

Definition Qround_ndigits (x : Q) (k : nat) : Q :=
  Qmake (round_half_even (x * inject_Z (Zpos (pow10 k)))) (pow10 k).

#[global] Instance exact : PyFloat Q := {
  of_int := inject_Z;
  literal m k := Qmake m (pow10 k);
  fadd := Qplus;
  fsub := Qminus;
  fmul := Qmult;
  fdiv := Qdiv;
  flt := Qltb;
  fle := Qle_bool;
  fis_zero x := Qeq_bool x 0;
  fround := Qround_ndigits
}.

(** *** Binary64 arithmetic *)

Module B64.

Definition prec : Z := 53.
Definition emax : Z := 1024.

(** The double nearest to [n / d] (ties to even).  Beyond the range of
    binary64 the result is an infinity; Python's [float(n)] raises
    [OverflowError] there, a case no input of this development reaches. *)
Definition of_frac (n : Z) (d : positive) : spec_float :=
  match n with
  | Z0 => S754_zero false
  | Zpos p =>
      let '(q, e, l) := SFdiv_core_binary prec emax (Zpos p) 0 (Zpos d) 0 in
      binary_round_aux prec emax false q e l
  | Zneg p =>
      let '(q, e, l) := SFdiv_core_binary prec emax (Zpos p) 0 (Zpos d) 0 in
      binary_round_aux prec emax true q e l
  end.

(** The rational a double stands for; [None] for infinities and NaN. *)
Definition to_Q (x : spec_float) : option Q :=
  match x with
  | S754_zero _ => Some 0%Q
  | S754_finite s m e =>
      let v := match e with
               | Zneg p => Qmake (Zpos m) (2 ^ p)
               | _ => inject_Z (Zpos m * 2 ^ e)
               end in
      Some (if s then Qopp v else v)
  | _ => None
  end.

(** [float.__round__] with [ndigits]: the exact value is rounded to [k]
    decimals, halves to even, and the decimal result is read back as the
    nearest double. *)
Definition round (x : spec_float) (k : nat) : spec_float :=
  match x, to_Q x with
  | S754_finite s _ _, Some q =>
      match round_half_even (q * inject_Z (Zpos (pow10 k))) with
      | Z0 => S754_zero s
      | n => of_frac n (pow10 k)
      end
  | _, _ => x
  end.

Definition is_zero (x : spec_float) : bool :=
  match x with S754_zero _ => true | _ => false end.

Definition is_nan (x : spec_float) : bool :=
  match x with S754_nan => true | _ => false end.

Definition is_finite (x : spec_float) : bool :=
  match x with S754_finite _ _ _ => true | _ => false end.

(** [x < y] and [x <= y] as propositions. *)
Definition lt (x y : spec_float) : Prop := SFltb x y = true.
Definition le (x y : spec_float) : Prop := SFleb x y = true.

End B64.

#[global] Instance binary64 : PyFloat spec_float := {
  of_int n := B64.of_frac n 1;
  literal m k := B64.of_frac m (pow10 k);
  fadd := SFadd B64.prec B64.emax;
  fsub := SFsub B64.prec B64.emax;
  fmul := SFmul B64.prec B64.emax;
  fdiv := SFdiv B64.prec B64.emax;
  flt := SFltb;
  fle := SFleb;
  fis_zero := B64.is_zero;
  fround := B64.round
}.

(** ** Built-ins on lists *)

Section Builtins.
Context {A K : Type}.

(** *** [list.sort(key=..., reverse=True)]

    The sort is stable and compares keys with [<] only.  On a list this
    short CPython sorts by insertion: the elements are taken left to
    right and each is put into the sorted prefix behind every element
    that is not greater (CPython finds that place by bisection).  With
    [reverse=True] the list is reversed before and after. *)
Variable lt : K -> K -> bool.
Variable key : A -> K.

Fixpoint insort (x : A) (l : list A) : list A :=
  match l with
  | [] => [x]
  | y :: l' => if lt (key x) (key y) then x :: y :: l' else y :: insort x l'
  end.

Definition sort_by_key (l : list A) : list A :=
  fold_left (fun sorted x => insort x sorted) l [].

Definition sort_by_key_reverse (l : list A) : list A :=
  reverse (sort_by_key (reverse l)).

End Builtins.

(** *** [max(l, key=...)]

    The first item is the candidate; a later item replaces it only when its
    key is greater.  An empty list raises [ValueError], and an exception of
    the key function propagates. *)
Fixpoint max_loop {A} (key : A -> result Z) (l : list A)
    (maxitem : A) (maxval : Z) : result A :=
  match l with
  | [] => Ok maxitem
  | item :: l' =>
      val ← key item;
      if maxval <? val then max_loop key l' item val
      else max_loop key l' maxitem maxval
  end.

Definition py_max {A} (key : A -> result Z) (l : list A) : result A :=
  match l with
  | [] => Raise ValueError
  | item :: l' => val ← key item; max_loop key l' item val
  end.

(** ** Domain models *)

Record City : Type := mkCity {
  city_name : string;
  country : string;
  hotel : Z;
  food : Z;
  safety : Z;
  internet : Z;
  walkability : Z;
  nightlife : Z;
  culture : Z
}.

Record TravelerProfile : Type := mkProfile {
  budget : Z;
  pace : string;
  priorities : list string
}.

(** The data store does not depend on the float arithmetic. *)
Definition CITIES : gmap string City := list_to_map [
  ("Sofia", mkCity "Sofia" "Bulgaria" 70 20 7 8 6 6 8);
  ("Belgrade", mkCity "Belgrade" "Serbia" 65 22 6 7 6 7 7);
  ("Budapest", mkCity "Budapest" "Hungary" 75 23 8 8 7 8 8);
  ("Vienna", mkCity "Vienna" "Austria" 95 30 9 9 8 6 9);
  ("Prague", mkCity "Prague" "Czech Republic" 85 25 8 8 9 7 9);
  ("Munich", mkCity "Munich" "Germany" 100 28 9 9 8 6 8)
].

Definition ROUTES : gmap string (list string) := list_to_map [
  ("Balkan Core", ["Sofia"; "Belgrade"; "Budapest"]);
  ("Central Europe", ["Munich"; "Vienna"; "Prague"; "Budapest"]);
  ("Grand Explorer",
     ["Sofia"; "Belgrade"; "Budapest"; "Vienna"; "Prague"; "Munich"])
].

Definition DISTANCE_PER_SEGMENT : Z := 300.

(** The widgets of the "System Insights" part. *)
Inductive widget : Type :=
  | st_info (msg : string)
  | st_warning (msg : string).

Section App.
Context {F : Type} `{PyFloat F}.
Local Open Scope py_scope.

(** [City.score] *)
Definition score (self : City) : F :=
  fround (of_int (safety self + internet self + walkability self
                  + culture self)%Z / of_int 4) 2.

(** ** Transport system *)

Record Transport : Type := mkTransport {
  _name : string;
  price_km : F;
  speed : Z;
  comfort : Z;
  eco : Z
}.

Definition name (self : Transport) : string := _name self.

Definition cost (self : Transport) (km : F) : F := km * price_km self.

Definition time (self : Transport) (km : F) : result F :=
  truediv km (of_int (speed self)).

Definition Car : Transport := mkTransport "🚗 Car" (literal 25 2) 80 7 6.
Definition Train : Transport := mkTransport "🚆 Train" (literal 18 2) 130 8 9.
Definition Plane : Transport := mkTransport "✈️ Plane" (literal 45 2) 650 9 3.
Definition Bus : Transport := mkTransport "🚌 Bus" (literal 12 2) 70 5 7.

(** ** Decision engines *)

Definition options : list Transport := [Car; Train; Plane; Bus].

(** One pass of the loop body of [recommend_transport]: the score of [t]. *)
Definition score_of (profile : TravelerProfile) (km : F) (t : Transport) : F :=
  let score := of_int 0 in
  let score :=
    if contains "Low cost" (priorities profile)
    then score - cost t km / of_int 100 else score in
  let score :=
    if contains "Comfort" (priorities profile)
    then score + of_int (comfort t * 2) else score in
  let score :=
    if contains "Eco" (priorities profile)
    then score + of_int (eco t * 2) else score in
  let score :=
    if contains "Fast" (priorities profile)
    then score + of_int (speed t) / of_int 100 else score in
  score.

(** The list [scored] when the loop is over. *)
Definition scored_list (profile : TravelerProfile) (km : F)
    : list (F * Transport) :=
  fold_left (fun scored t => scored ++ [(score_of profile km t, t)])
    options [].

Definition recommend_transport (profile : TravelerProfile) (km : F)
    : result Transport :=
  let scored := sort_by_key_reverse flt fst (scored_list profile km) in
  match scored !! 0%nat with
  | Some x => Ok (snd x)
  | None => Raise IndexError
  end.

Definition budget_risk (total budget : F) : result string :=
  ratio ← truediv total budget;
  if ratio <? literal 85 2 then Ok "LOW"
  else if ratio <=? literal 10 1 then Ok "MEDIUM"
  else Ok "HIGH".

(** ** The script *)

(** The loop over the city cards: the two running totals, and the score
    printed on each card. *)
Definition city_cards (cities : list string) (days_city : Z)
    : result (Z * Z * list (string * F)) :=
  foldl (fun acc c =>
           '(hotel_total, food_total, cards) ← acc;
           city ← getitem CITIES c;
           Ok ((hotel_total + hotel city * days_city)%Z,
               (food_total + food city * days_city)%Z,
               cards ++ [(city_name city, score city)]))
        (Ok (0%Z, 0%Z, [])) cities.

(** The "System Insights" part. *)
Definition insights (cities priorities : list string) (transport : Transport)
    : result (list widget) :=
  out1 ←
    (if contains "Nightlife" priorities then
       top ← py_max (fun x => city ← getitem CITIES x; Ok (nightlife city)) cities;
       Ok [st_info ("🌃 Best nightlife on this route: " +:+ top)]
     else Ok []);
  out2 ←
    (if contains "Culture" priorities then
       top ← py_max (fun x => city ← getitem CITIES x; Ok (culture city)) cities;
       Ok [st_info ("🎭 Cultural highlight: " +:+ top)]
     else Ok []);
  let out3 :=
    if (eco transport <? 5)%Z && contains "Eco" priorities
    then [st_warning "♻️ Your eco priority conflicts with transport choice"]
    else [] in
  Ok (out1 ++ out2 ++ out3).

(** Everything the page displays. *)
Record Page : Type := mkPage {
  km_total : Z;
  transport : Transport;
  n_cities : Z;
  n_days : Z;
  cards : list (string * F);
  hotel_total : Z;
  food_total : Z;
  transport_cost : F;
  transport_time : F;
  total_cost : F;
  risk : string;
  messages : list widget
}.

(** The script from [cities = ROUTES[route_name]] on. *)
Definition plan (cities : list string) (budget days_city : Z)
    (priorities : list string) : result Page :=
  let profile := mkProfile budget "normal" priorities in
  let segments := (Z.of_nat (length cities) - 1)%Z in
  let km_total := (segments * DISTANCE_PER_SEGMENT)%Z in
  transport ← recommend_transport profile (of_int km_total);
  '(hotel_total, food_total, cards) ← city_cards cities days_city;
  let transport_cost := cost transport (of_int km_total) in
  transport_time ← time transport (of_int km_total);
  let total_cost := of_int (hotel_total + food_total) + transport_cost in
  risk ← budget_risk total_cost (of_int budget);
  messages ← insights cities priorities transport;
  Ok (mkPage km_total transport (Z.of_nat (length cities))
        (Z.of_nat (length cities) * days_city)%Z cards
        hotel_total food_total transport_cost transport_time total_cost
        risk messages).

(** The whole script, as a function of the sidebar. *)
Definition main (route_name : string) (budget days_city : Z)
    (priorities : list string) : result Page :=
  cities ← getitem ROUTES route_name;
  plan cities budget days_city priorities.

End App.

(** * Specification-side definitions *)


(** The leftmost item of [l] whose key no other key exceeds, computed from
    the right: an item gives way only to a later one with a greater key. *)
Fixpoint first_max {A K : Type} (lt : K -> K -> bool) (key : A -> K)
    (l : list A) : option A :=
  match l with
  | [] => None
  | x :: l' =>
      match first_max lt key l' with
      | Some m => if lt (key x) (key m) then Some m else Some x
      | None => Some x
      end
  end.

(** [a] may stand before [b] in a list sorted by ascending key. *)
Definition ascending {A K : Type} (lt : K -> K -> bool) (key : A -> K)
    (a b : A) : Prop :=
  lt (key b) (key a) = false.

(** [x] is at position [i] of [l], no item of [l] has a greater [rating],
    and every item before position [i] has a smaller one. *)
Definition first_with_max {A R : Type} (le lt : R -> R -> Prop)
    (rating : A -> R) (l : list A) (i : nat) (x : A) : Prop :=
  l !! i = Some x /\
  forall (j : nat) y, l !! j = Some y ->
    le (rating y) (rating x) /\ ((j < i)%nat -> lt (rating y) (rating x)).

Definition Zsum (l : list Z) : Z := foldr Z.add 0 l.

(** The arithmetic mean of a list of ratings. *)
Definition mean (l : list Z) : Q :=
  (inject_Z (Zsum l) / inject_Z (Z.of_nat (length l)))%Q.

(** [r] has at most [k] decimals and lies within half a unit of the [k]-th
    decimal of [x], so that no number with [k] decimals is nearer. *)
Definition rounded_to (k : nat) (x r : Q) : Prop :=
  (exists n : Z, r == Qmake n (pow10 k))%Q /\
  (Qabs (r - x) <= Qmake 1 (2 * pow10 k))%Q.

(** A rating of the city called [c]. *)
Definition rating_of (f : City -> Z) (c : string) : Z :=
  match CITIES !! c with
  | Some city => f city
  | None => 0
  end.

(** The city records behind the names of a route. *)
Definition cities_of (names : list string) (cs : list City) : Prop :=
  Forall2 (fun c city => CITIES !! c = Some city) names cs.

(** In the arithmetic [F] the float of an [int] that is not zero is not
    zero, so that a division by it does not raise. *)
Definition converts_nonzero (F : Type) `{PyFloat F} : Prop :=
  forall n : Z, n <> 0 -> fis_zero (of_int n) = false.

(** The warning of the "System Insights" part. *)
Definition eco_conflict : widget :=
  st_warning "♻️ Your eco priority conflicts with transport choice".

(** The scores in [scored], in the order of the options. *)
Definition scores {F : Type} `{PyFloat F} (profile : TravelerProfile) (km : F)
    : list F :=
  map fst (scored_list profile km).

(** Do exact arithmetic and binary64 recommend the mode of the same name
    at the distance [km]? *)
Definition same_choice (profile : TravelerProfile) (km : Z) : bool :=
  match recommend_transport (F:=Q) profile (of_int km),
        recommend_transport (F:=spec_float) profile (of_int km) with
  | Ok a, Ok b => String.eqb (name a) (name b)
  | _, _ => false
  end.

(** * The rest of the script *)

(** ** The sidebar *)

(** The labels of the priority multiselect. *)
Definition vocabulary : list string :=
  ["Low cost"; "Comfort"; "Fast"; "Eco"; "Nightlife"; "Culture"].

(** What the widgets of the sidebar can hand over: a key of [ROUTES] (the
    select box), a budget from 500 to 20000 (the number input), 1 to 7 days
    per city (the slider), and labels of the vocabulary, each at most once
    (the multiselect). *)
Definition valid_sidebar (route_name : string) (budget days_city : Z)
    (priorities : list string) : Prop :=
  is_Some (ROUTES !! route_name) /\
  500 <= budget <= 20000 /\
  1 <= days_city <= 7 /\
  NoDup priorities /\
  priorities ⊆ vocabulary.

(** ** The budget alert *)

(** The three status boxes of Streamlit that the alert uses. *)
Module alert.

Inductive t : Type :=
  | st_success (msg : string)
  | st_warning (msg : string)
  | st_error (msg : string).

End alert.


(** ** Further specification-side definitions *)


(** Two priority lists select the same scoring labels. *)
Definition same_scoring (p1 p2 : list string) : Prop :=
  forall x, x ∈ ["Low cost"; "Comfort"; "Eco"; "Fast"] ->
    (x ∈ p1 <-> x ∈ p2).

(** * Tactics *)

(** Case analysis on the integer and mantissa comparisons behind a
    comparison of doubles. *)
Ltac compare_cases :=
  repeat match goal with
         | H : context [Pos.compare_cont Eq ?a ?b] |- _ =>
             change (Pos.compare_cont Eq a b) with (Pos.compare a b) in H
         | |- context [Pos.compare_cont Eq ?a ?b] =>
             change (Pos.compare_cont Eq a b) with (Pos.compare a b)
         end;
  repeat match goal with
         | H : context [Z.compare ?a ?b] |- _ =>
             destruct (Z.compare_spec a b); simpl in H; try discriminate H
         | H : context [Pos.compare ?a ?b] |- _ =>
             destruct (Pos.compare_spec a b); simpl in H; try discriminate H
         end;
  repeat match goal with
         | |- context [Z.compare ?a ?b] =>
             destruct (Z.compare_spec a b); simpl; try lia
         | |- context [Pos.compare ?a ?b] =>
             destruct (Pos.compare_spec a b); simpl; try lia
         end;
  try reflexivity; try lia.

(** Evaluates the numeric constants of a goal over [Q]. *)
Ltac qconst :=
  repeat match goal with
         | |- context [inject_Z ?z] =>
             let v := eval vm_compute in (inject_Z z) in
             progress change (inject_Z z) with v
         | |- context [Qmake ?n ?d] =>
             let v := eval vm_compute in (Qmake n d) in
             progress change (Qmake n d) with v
         | |- context [Qinv ?q] =>
             let v := eval vm_compute in (Qinv q) in
             progress change (Qinv q) with v
         end.

(** * Facts about the built-ins *)

Section SortFacts.
Context {A K : Type}.
Variable lt : K -> K -> bool.
Variable key : A -> K.

(** On the keys that are [good], [lt] is the strict part of a total
    preorder.  (Every rational is good; a double is unless it is NaN.) *)
Variable good : K -> Prop.
Hypothesis lt_asym :
  forall a b, good a -> good b -> lt a b = true -> lt b a = false.
Hypothesis le_trans :
  forall a b c, good a -> good b -> good c ->
    lt b a = false -> lt c b = false -> lt c a = false.

Lemma lt_irrefl a : good a -> lt a a = false.
Proof.
  intros Ha. destruct (lt a a) eqn:E; [|reflexivity].
  pose proof (lt_asym _ _ Ha Ha E). congruence.
Qed.

Lemma sort_by_key_snoc l x :
  sort_by_key lt key (l ++ [x]) = insort lt key x (sort_by_key lt key l).
Proof. unfold sort_by_key. now rewrite fold_left_app. Qed.

Lemma Forall_insort (P : A -> Prop) x l :
  P x -> Forall P l -> Forall P (insort lt key x l).
Proof.
  intros Hx Hl. induction Hl as [|y l Hy Hl IH]; simpl.
  - auto.
  - destruct (lt (key x) (key y)); auto.
Qed.

Lemma Forall_sort_by_key (P : A -> Prop) l :
  Forall P l -> Forall P (sort_by_key lt key l).
Proof.
  induction l as [|x l IH] using rev_ind; intros Hl.
  - constructor.
  - apply Forall_app in Hl as [Hl Hx]. rewrite sort_by_key_snoc.
    apply Forall_insort; [now inversion Hx | now apply IH].
Qed.

Lemma insort_sorted x l :
  good (key x) -> Forall (fun y => good (key y)) l ->
  StronglySorted (ascending lt key) l ->
  StronglySorted (ascending lt key) (insort lt key x l).
Proof.
  intros Hx Hl Hs. induction Hs as [|y l Hs IH Hy]; simpl.
  - repeat constructor.
  - apply Forall_cons in Hl as [Hgy Hl].
    destruct (lt (key x) (key y)) eqn:E.
    + constructor; [constructor; assumption|].
      constructor; [exact (lt_asym _ _ Hx Hgy E)|].
      apply Forall_forall. intros z Hz. unfold ascending.
      apply (le_trans _ (key y) _ Hx Hgy).
      * exact (proj1 (Forall_forall _ _) Hl z Hz).
      * exact (lt_asym _ _ Hx Hgy E).
      * exact (proj1 (Forall_forall _ _) Hy z Hz).
    + constructor; [now apply IH|]. now apply Forall_insort.
Qed.

Lemma sort_by_key_sorted l :
  Forall (fun y => good (key y)) l ->
  StronglySorted (ascending lt key) (sort_by_key lt key l).
Proof.
  induction l as [|x l IH] using rev_ind; intros Hl.
  - constructor.
  - apply Forall_app in Hl as [Hl Hx]. rewrite sort_by_key_snoc.
    apply insort_sorted; [now inversion Hx | | now apply IH].
    now apply Forall_sort_by_key.
Qed.

(** Where the new element lands decides the last element. *)
Lemma last_insort x l :
  good (key x) -> Forall (fun y => good (key y)) l ->
  StronglySorted (ascending lt key) l ->
  last (insort lt key x l) =
    Some (match last l with
          | Some m => if lt (key x) (key m) then m else x
          | None => x
          end).
Proof.
  intros Hx Hl Hs. induction Hs as [|y l Hs IH Hy]; simpl; [reflexivity|].
  apply Forall_cons in Hl as [Hgy Hl].
  destruct (lt (key x) (key y)) eqn:E.
  - rewrite last_cons_cons.
    destruct (last (y :: l)) as [m|] eqn:Hm.
    + assert (Hgm : good (key m)).
      { apply last_Some_elem_of, elem_of_cons in Hm as [->|Hm]; [exact Hgy|].
        exact (proj1 (Forall_forall _ _) Hl m Hm). }
      assert (Hym : lt (key m) (key y) = false).
      { destruct l as [|z l]; simpl in Hm.
        - injection Hm as <-. now apply lt_irrefl.
        - apply (proj1 (Forall_forall _ _) Hy).
          apply last_Some_elem_of. exact Hm. }
      destruct (lt (key x) (key m)) eqn:E'; [reflexivity|].
      rewrite (le_trans _ _ _ Hgy Hgm Hx Hym E') in E. discriminate.
    + apply last_None in Hm. discriminate.
  - destruct l as [|z l].
    + simpl. now rewrite E.
    + assert (Hne : exists w l', insort lt key x (z :: l) = w :: l').
      { simpl. destruct (lt (key x) (key z)); eauto. }
      destruct Hne as (w & l' & Hw). rewrite Hw, last_cons_cons, <- Hw.
      rewrite (IH Hl), last_cons_cons. reflexivity.
Qed.

Lemma last_sort_reverse l :
  Forall (fun y => good (key y)) l ->
  last (sort_by_key lt key (reverse l)) = first_max lt key l.
Proof.
  induction l as [|x l IH]; intros Hl; [reflexivity|].
  apply Forall_cons in Hl as [Hx Hl].
  assert (Hrev : Forall (fun y => good (key y)) (reverse l))
    by now apply Forall_reverse.
  rewrite reverse_cons, sort_by_key_snoc.
  rewrite last_insort;
    [|exact Hx | now apply Forall_sort_by_key | now apply sort_by_key_sorted].
  rewrite (IH Hl). simpl.
  destruct (first_max lt key l) as [m|]; [|reflexivity].
  now destruct (lt (key x) (key m)).
Qed.

(** After [sort(key=..., reverse=True)], item [0] is the leftmost of the
    items with the greatest key. *)
Lemma sort_reverse_head l :
  Forall (fun y => good (key y)) l ->
  sort_by_key_reverse lt key l !! 0%nat = first_max lt key l.
Proof.
  intros Hl. unfold sort_by_key_reverse.
  rewrite <- head_lookup, head_reverse. now apply last_sort_reverse.
Qed.

Lemma first_max_spec l m :
  Forall (fun y => good (key y)) l ->
  first_max lt key l = Some m ->
  exists i : nat,
    l !! i = Some m /\
    forall (j : nat) y, l !! j = Some y ->
      lt (key m) (key y) = false /\
      ((j < i)%nat -> lt (key y) (key m) = true).
Proof.
  revert m. induction l as [|x l IH]; intros m Hl; simpl; [discriminate|].
  apply Forall_cons in Hl as [Hx Hl].
  destruct (first_max lt key l) as [m'|] eqn:Hm'.
  - destruct (IH m' Hl eq_refl) as (i & Hi & Hmax).
    assert (Hgm : good (key m')).
    { apply list_elem_of_lookup_2 in Hi.
      exact (proj1 (Forall_forall _ _) Hl m' Hi). }
    destruct (lt (key x) (key m')) eqn:E; intros [= <-].
    + exists (S i). split; [exact Hi|].
      intros [|j] y Hy; simpl in Hy.
      * injection Hy as <-. split; [exact (lt_asym _ _ Hx Hgm E) | auto].
      * destruct (Hmax j y Hy) as [H1 H2]. split; [exact H1|].
        intros Hlt. apply H2. lia.
    + exists 0%nat. split; [reflexivity|].
      intros [|j] y Hy; simpl in Hy.
      * injection Hy as <-. split; [now apply lt_irrefl | lia].
      * split; [|lia]. destruct (Hmax j y Hy) as [H1 _].
        assert (Hgy : good (key y)).
        { apply list_elem_of_lookup_2 in Hy.
          exact (proj1 (Forall_forall _ _) Hl y Hy). }
        exact (le_trans _ _ _ Hgy Hgm Hx H1 E).
  - intros [= <-]. exists 0%nat. split; [reflexivity|].
    destruct l;
      [|simpl in Hm'; destruct (first_max lt key l);
        [destruct (lt _ _)|]; discriminate].
    intros [|j] y Hy; simpl in Hy; [|discriminate].
    injection Hy as <-. split; [now apply lt_irrefl | lia].
Qed.

End SortFacts.

Lemma first_max_fmap {A K} (lt : K -> K -> bool) (f : A -> K) (l : list A) :
  first_max lt fst (map (fun t => (f t, t)) l)
  = (fun t => (f t, t)) <$> first_max lt f l.
Proof.
  induction l as [|x l IH]; simpl; [reflexivity|].
  rewrite IH. destruct (first_max lt f l) as [m|]; simpl; [|reflexivity].
  now destruct (lt (f x) (f m)).
Qed.

Lemma first_max_is_Some {A K} (lt : K -> K -> bool) (f : A -> K) (l : list A) :
  l <> [] -> is_Some (first_max lt f l).
Proof.
  destruct l as [|x l]; [contradiction|]. intros _. simpl.
  destruct (first_max lt f l) as [m|]; [destruct (lt (f x) (f m))|]; eauto.
Qed.

Lemma insort_length {A K} (lt : K -> K -> bool) (key : A -> K) x (l : list A) :
  length (insort lt key x l) = S (length l).
Proof.
  induction l as [|y l IH]; simpl; [reflexivity|].
  destruct (lt (key x) (key y)); simpl; now rewrite ?IH.
Qed.

Lemma sort_by_key_reverse_length {A K} (lt : K -> K -> bool) (key : A -> K)
    (l : list A) :
  length (sort_by_key_reverse lt key l) = length l.
Proof.
  unfold sort_by_key_reverse. rewrite length_reverse.
  rewrite <- (length_reverse l).
  induction (reverse l) as [|x l' IH] using rev_ind; [reflexivity|].
  rewrite sort_by_key_snoc, insort_length, IH, length_app. simpl. lia.
Qed.

Lemma Forall_sort_by_key_reverse {A K} (lt : K -> K -> bool) (key : A -> K)
    (P : A -> Prop) (l : list A) :
  Forall P l -> Forall P (sort_by_key_reverse lt key l).
Proof.
  intros Hl. unfold sort_by_key_reverse.
  apply Forall_reverse, Forall_sort_by_key, Forall_reverse, Hl.
Qed.

(** * The two arithmetics *)

(** ** Comparison of rationals *)

Lemma Qltb_lt (x y : Q) : Qltb x y = true <-> (x < y)%Q.
Proof.
  unfold Qltb. rewrite Qlt_alt.
  destruct (x ?= y)%Q; split; congruence.
Qed.

Lemma Qltb_ge (x y : Q) : Qltb x y = false <-> (y <= x)%Q.
Proof.
  rewrite <- not_true_iff_false, Qltb_lt. split.
  - apply Qnot_lt_le.
  - apply Qle_not_lt.
Qed.

Lemma Qltb_asym (a b : Q) : Qltb a b = true -> Qltb b a = false.
Proof. rewrite Qltb_lt, Qltb_ge. apply Qlt_le_weak. Qed.

Lemma Qltb_le_trans (a b c : Q) :
  Qltb b a = false -> Qltb c b = false -> Qltb c a = false.
Proof. rewrite !Qltb_ge. apply Qle_trans. Qed.

Lemma Qle_bool_false (x y : Q) : Qle_bool x y = false <-> (y < x)%Q.
Proof.
  rewrite <- not_true_iff_false, Qle_bool_iff. split.
  - apply Qnot_le_lt.
  - apply Qlt_not_le.
Qed.

(** ** Comparison of doubles *)

Lemma SFcompare_antisym (a b : spec_float) :
  SFcompare b a = option_map CompOpp (SFcompare a b).
Proof.
  destruct a as [[]|[]| |[] ma ea], b as [[]|[]| |[] mb eb];
    simpl; try reflexivity.
  all: rewrite (Z.compare_antisym ea eb); destruct (ea ?= eb);
    simpl; try reflexivity.
  all: rewrite (Pos.compare_cont_antisym ma mb Eq); simpl; try reflexivity.
  all: now rewrite CompOpp_involutive.
Qed.

Lemma SFcompare_Some (a b : spec_float) :
  B64.is_nan a = false -> B64.is_nan b = false ->
  exists c, SFcompare a b = Some c.
Proof.
  destruct a as [[]|[]| |[] ma ea], b as [[]|[]| |[] mb eb];
    simpl; intros Ha Hb; try discriminate; eauto.
Qed.

Lemma SFltb_not_nan (a b : spec_float) :
  SFltb a b = true -> B64.is_nan a = false /\ B64.is_nan b = false.
Proof. destruct a, b; simpl; try discriminate; auto. Qed.

Lemma SFleb_not_nan (a b : spec_float) :
  SFleb a b = true -> B64.is_nan a = false /\ B64.is_nan b = false.
Proof. destruct a, b; simpl; try discriminate; auto. Qed.

Lemma SFltb_asym (a b : spec_float) : SFltb a b = true -> SFltb b a = false.
Proof.
  unfold SFltb. rewrite (SFcompare_antisym a b).
  destruct (SFcompare a b) as [[]|]; simpl; congruence.
Qed.

Lemma SFltb_le_trans (a b c : spec_float) :
  B64.is_nan a = false -> B64.is_nan b = false -> B64.is_nan c = false ->
  SFltb b a = false -> SFltb c b = false -> SFltb c a = false.
Proof.
  unfold SFltb.
  destruct a as [[]|[]| |[] ma ea], b as [[]|[]| |[] mb eb],
    c as [[]|[]| |[] mc ec]; simpl; intros Ha Hb Hc H1 H2;
    try congruence; compare_cases; congruence.
Qed.

Lemma SFltb_trans (a b c : spec_float) :
  SFltb a b = true -> SFltb b c = true -> SFltb a c = true.
Proof.
  intros Hab Hbc.
  destruct (SFltb_not_nan _ _ Hab) as [Ha Hb].
  destruct (SFltb_not_nan _ _ Hbc) as [_ Hc].
  destruct (SFltb a c) eqn:E; [reflexivity|].
  pose proof (SFltb_le_trans c a b Hc Ha Hb E (SFltb_asym _ _ Hab)) as H.
  congruence.
Qed.

(** Among doubles that are not NaN, "not less" is "greater or equal". *)
Lemma SFltb_false_leb (a b : spec_float) :
  B64.is_nan a = false -> B64.is_nan b = false ->
  SFltb b a = false -> SFleb a b = true.
Proof.
  intros Ha Hb. unfold SFltb, SFleb. rewrite (SFcompare_antisym a b).
  destruct (SFcompare_Some a b Ha Hb) as [[] ->]; simpl; congruence.
Qed.

Lemma SFleb_ltb_false (a b : spec_float) :
  SFleb a b = true -> SFltb b a = false.
Proof.
  unfold SFltb, SFleb. rewrite (SFcompare_antisym a b).
  destruct (SFcompare a b) as [[]|]; simpl; congruence.
Qed.

Lemma SFltb_leb_false (a b : spec_float) :
  SFltb a b = true -> SFleb b a = false.
Proof.
  unfold SFltb, SFleb. rewrite (SFcompare_antisym a b).
  destruct (SFcompare a b) as [[]|]; simpl; congruence.
Qed.

(** ** No operation of a score produces a NaN *)

Lemma iter_pos_preserves {A} (P : A -> Prop) (f : A -> A) :
  (forall x, P x -> P (f x)) ->
  forall (p : positive) (x : A), P x -> P (SpecFloat.iter_pos f p x).
Proof.
  intros Hf. induction p as [p IH|p IH|]; intros x Hx; simpl; auto.
Qed.

Lemma shr_1_nonneg (mrs : shr_record) :
  0 <= shr_m mrs -> 0 <= shr_m (shr_1 mrs).
Proof.
  destruct mrs as [m r s]. simpl.
  destruct m as [|[p|p|]|[p|p|]]; simpl; lia.
Qed.

Lemma shr_fexp_nonneg (m e : Z) (l : location) :
  0 <= m -> 0 <= shr_m (fst (shr_fexp B64.prec B64.emax m e l)).
Proof.
  intros Hm. unfold shr_fexp, shr.
  assert (H0 : 0 <= shr_m (shr_record_of_loc m l))
    by (destruct l as [|[]]; exact Hm).
  destruct (fexp B64.prec B64.emax (Zdigits2 m + e) - e); simpl; try exact H0.
  now apply (iter_pos_preserves (fun mrs => 0 <= shr_m mrs) _ shr_1_nonneg).
Qed.

Lemma round_nearest_even_nonneg (m : Z) (l : location) :
  0 <= m -> 0 <= round_nearest_even m l.
Proof.
  intros Hm. destruct l as [|[]]; simpl; try lia.
  destruct (Z.even m); lia.
Qed.

Lemma binary_round_aux_not_nan (s : bool) (m e : Z) (l : location) :
  0 <= m -> B64.is_nan (binary_round_aux B64.prec B64.emax s m e l) = false.
Proof.
  intros Hm. unfold binary_round_aux.
  pose proof (shr_fexp_nonneg m e l Hm) as H1.
  destruct (shr_fexp B64.prec B64.emax m e l) as [mrs' e'].
  simpl in H1.
  pose proof (shr_fexp_nonneg _ e' loc_Exact
                (round_nearest_even_nonneg _ (loc_of_shr_record mrs') H1))
    as H2.
  destruct (shr_fexp B64.prec B64.emax
              (round_nearest_even (shr_m mrs') (loc_of_shr_record mrs'))
              e' loc_Exact) as [mrs'' e''].
  simpl in H2.
  destruct (shr_m mrs'') as [|p|p]; [reflexivity | | lia].
  now destruct (e'' <=? B64.emax - B64.prec).
Qed.

Lemma binary_normalize_not_nan (m e : Z) (szero : bool) :
  B64.is_nan (binary_normalize B64.prec B64.emax m e szero) = false.
Proof.
  destruct m as [|p|p]; simpl; [reflexivity| |];
    unfold binary_round;
    destruct (shl_align _ _ _) as [mz ez];
    now apply binary_round_aux_not_nan.
Qed.

Lemma SFmul_not_nan (x y : spec_float) :
  B64.is_nan x = false -> B64.is_finite y = true ->
  B64.is_nan (SFmul B64.prec B64.emax x y) = false.
Proof.
  destruct x as [sx|sx| |sx mx ex], y as [sy|sy| |sy my ey];
    simpl; intros Hx Hy; try discriminate; try reflexivity.
  now apply binary_round_aux_not_nan.
Qed.

Lemma SFdiv_not_nan (x y : spec_float) :
  B64.is_nan x = false -> B64.is_finite y = true ->
  B64.is_nan (SFdiv B64.prec B64.emax x y) = false.
Proof.
  destruct x as [sx|sx| |sx mx ex], y as [sy|sy| |sy my ey];
    simpl; intros Hx Hy; try discriminate; try reflexivity.
  unfold SFdiv_core_binary.
  set (e' := Z.min _ _). set (m' := match _ with Zpos _ => _ | _ => _ end).
  assert (Hm' : 0 <= m').
  { unfold m'. destruct (ex - ey - e'); try lia.
    rewrite Z.shiftl_mul_pow2 by lia. lia. }
  pose proof (Z.div_pos m' (Zpos my) Hm' ltac:(lia)) as Hq.
  unfold Z.div in Hq. destruct (Z.div_eucl m' (Zpos my)) as [q r].
  now apply binary_round_aux_not_nan.
Qed.

Lemma SFadd_not_nan (x y : spec_float) :
  B64.is_nan x = false -> B64.is_finite y = true ->
  B64.is_nan (SFadd B64.prec B64.emax x y) = false.
Proof.
  destruct x as [sx|sx| |sx mx ex], y as [sy|sy| |sy my ey];
    simpl; intros Hx Hy; try discriminate; try reflexivity.
  apply binary_normalize_not_nan.
Qed.

Lemma SFsub_zero_not_nan (y : spec_float) :
  B64.is_nan y = false ->
  B64.is_nan (SFsub B64.prec B64.emax (S754_zero false) y) = false.
Proof. destruct y as [[]|sy| |sy my ey]; simpl; congruence. Qed.

(** ** The conversion of an [int] that is not zero is not zero *)

Lemma shr_1_half (mrs : shr_record) :
  0 <= shr_m mrs -> shr_m (shr_1 mrs) = shr_m mrs / 2.
Proof.
  destruct mrs as [m r s]. simpl. intros Hm.
  destruct m as [|[p|p|]|p]; simpl; try reflexivity; try lia.
  - rewrite (Pos2Z.inj_xI p). apply Z.div_unique with 1; lia.
  - rewrite (Pos2Z.inj_xO p). apply Z.div_unique with 0; lia.
Qed.

Lemma pow2_xI (p : positive) :
  2 ^ Zpos p~1 = 2 * (2 ^ Zpos p * 2 ^ Zpos p).
Proof.
  rewrite (Pos2Z.inj_xI p), Z.pow_add_r, Z.pow_twice_r by lia.
  change (2 ^ 1) with 2. lia.
Qed.

Lemma pow2_xO (p : positive) : 2 ^ Zpos p~0 = 2 ^ Zpos p * 2 ^ Zpos p.
Proof. now rewrite (Pos2Z.inj_xO p), Z.pow_twice_r. Qed.

Lemma iter_shr_1 (n : positive) (mrs : shr_record) :
  0 <= shr_m mrs ->
  shr_m (SpecFloat.iter_pos shr_1 n mrs) = shr_m mrs / 2 ^ Zpos n.
Proof.
  assert (Hnn : forall (p : positive) (x : shr_record),
             0 <= shr_m x -> 0 <= shr_m (SpecFloat.iter_pos shr_1 p x))
    by exact (iter_pos_preserves (fun x => 0 <= shr_m x) _ shr_1_nonneg).
  revert mrs. induction n as [n IH|n IH|]; intros mrs Hm; simpl.
  - rewrite IH, IH, shr_1_half by auto using shr_1_nonneg.
    assert (Hp : 0 < 2 ^ Zpos n) by (apply Z.pow_pos_nonneg; lia).
    rewrite !Z.div_div by lia. now rewrite pow2_xI, Z.mul_assoc.
  - rewrite IH, IH by auto.
    assert (Hp : 0 < 2 ^ Zpos n) by (apply Z.pow_pos_nonneg; lia).
    rewrite !Z.div_div by lia. now rewrite pow2_xO.
  - now apply shr_1_half.
Qed.

Lemma digits2_pos_lower (p : positive) :
  2 ^ (Zpos (digits2_pos p) - 1) <= Zpos p.
Proof.
  induction p as [p IH|p IH|]; simpl digits2_pos;
    rewrite ?Pos2Z.inj_succ; [| |reflexivity].
  - replace (Z.succ (Zpos (digits2_pos p)) - 1)
      with (Z.succ (Zpos (digits2_pos p) - 1)) by lia.
    rewrite Z.pow_succ_r by lia. lia.
  - replace (Z.succ (Zpos (digits2_pos p)) - 1)
      with (Z.succ (Zpos (digits2_pos p) - 1)) by lia.
    rewrite Z.pow_succ_r by lia. lia.
Qed.

(** Above the least exponent the shift of a rounding keeps a mantissa
    that is not zero. *)
Lemma shr_fexp_pos (m e : Z) (l : location) :
  0 < m -> emin B64.prec B64.emax <= e ->
  0 < shr_m (fst (shr_fexp B64.prec B64.emax m e l)) /\
  emin B64.prec B64.emax <= snd (shr_fexp B64.prec B64.emax m e l).
Proof.
  intros Hm He. unfold shr_fexp, shr.
  assert (H0 : shr_m (shr_record_of_loc m l) = m) by (destruct l as [|[]]; reflexivity).
  destruct m as [|p|p]; try lia. simpl Zdigits2.
  pose proof (digits2_pos_lower p) as Hd.
  destruct (fexp B64.prec B64.emax (Zpos (digits2_pos p) + e) - e)
    as [|n|n] eqn:En; simpl; rewrite ?H0; try (split; lia).
  rewrite iter_shr_1 by (rewrite H0; lia). rewrite H0. split; [|lia].
  apply Z.div_str_pos. split; [lia|].
  eapply Z.le_trans; [|exact Hd].
  apply Z.pow_le_mono_r; [lia|].
  unfold fexp, emin, B64.prec, B64.emax in *. lia.
Qed.

Lemma round_nearest_even_pos (m : Z) (l : location) :
  0 < m -> 0 < round_nearest_even m l.
Proof.
  intros Hm. destruct l as [|[]]; simpl; try lia.
  destruct (Z.even m); lia.
Qed.

Lemma binary_round_aux_not_zero (s : bool) (m e : Z) (l : location) :
  0 < m -> emin B64.prec B64.emax <= e ->
  B64.is_zero (binary_round_aux B64.prec B64.emax s m e l) = false.
Proof.
  intros Hm He. unfold binary_round_aux.
  destruct (shr_fexp_pos m e l Hm He) as [H1 H1'].
  destruct (shr_fexp B64.prec B64.emax m e l) as [mrs' e'].
  simpl in H1, H1'.
  destruct (shr_fexp_pos _ e' loc_Exact
              (round_nearest_even_pos _ (loc_of_shr_record mrs') H1) H1')
    as [H2 _].
  destruct (shr_fexp B64.prec B64.emax
              (round_nearest_even (shr_m mrs') (loc_of_shr_record mrs'))
              e' loc_Exact) as [mrs'' e''].
  simpl in H2.
  destruct (shr_m mrs'') as [|p|p]; [lia| |reflexivity].
  now destruct (e'' <=? B64.emax - B64.prec).
Qed.

Lemma of_frac_1_not_zero (n : Z) :
  n <> 0 -> B64.is_zero (B64.of_frac n 1) = false.
Proof.
  assert (Hcore : forall (s : bool) (p : positive),
             B64.is_zero
               (let '(q, e, l) :=
                  SFdiv_core_binary B64.prec B64.emax (Zpos p) 0 1 0 in
                binary_round_aux B64.prec B64.emax s q e l) = false).
  { intros s p. unfold SFdiv_core_binary.
    set (e' := Z.min _ _).
    assert (He' : emin B64.prec B64.emax <= e' <= 0).
    { unfold e', fexp, emin, B64.prec, B64.emax. lia. }
    set (m' := match 0 - 0 - e' with Zpos _ => _ | Z0 => _ | Zneg _ => _ end).
    assert (Hm' : 0 < m').
    { unfold m'. destruct (0 - 0 - e') eqn:Es; try lia.
      rewrite Z.shiftl_mul_pow2 by lia.
      apply Z.mul_pos_pos; [lia|]. apply Z.pow_pos_nonneg; lia. }
    pose proof (Z.div_1_r m') as Hq. unfold Z.div in Hq.
    destruct (Z.div_eucl m' 1) as [q r]. subst q.
    apply binary_round_aux_not_zero; lia. }
  intros Hn. destruct n as [|p|p]; [contradiction| |]; apply Hcore.
Qed.

Lemma exact_converts_nonzero : converts_nonzero Q.
Proof.
  intros n Hn. simpl. destruct (Qeq_bool (inject_Z n) 0) eqn:E; [|reflexivity].
  apply Qeq_bool_iff in E. unfold Qeq in E. simpl in E. lia.
Qed.

Lemma binary64_converts_nonzero : converts_nonzero spec_float.
Proof. intros n Hn. now apply of_frac_1_not_zero. Qed.

(** * The decision engines *)

Section Recommend.
Context {F : Type} `{PyFloat F}.

Lemma scored_list_options (profile : TravelerProfile) (km : F) :
  scored_list profile km = map (fun t => (score_of profile km t, t)) options.
Proof. reflexivity. Qed.

Lemma elem_of_options (t : Transport (F:=F)) :
  t ∈ options -> t = Car \/ t = Train \/ t = Plane \/ t = Bus.
Proof.
  unfold options. rewrite !elem_of_cons, elem_of_nil. tauto.
Qed.

(** Whatever the arithmetic, [recommend_transport] does not raise and
    returns one of the four options. *)
Lemma recommend_transport_total (profile : TravelerProfile) (km : F) :
  exists t : Transport,
    recommend_transport profile km = Ok t /\ t ∈ options.
Proof.
  unfold recommend_transport.
  destruct (sort_by_key_reverse flt fst (scored_list profile km) !! 0%nat)
    as [x|] eqn:E.
  - exists (snd x). split; [reflexivity|].
    apply list_elem_of_lookup_2 in E. revert x E. apply Forall_forall.
    apply Forall_sort_by_key_reverse. rewrite scored_list_options.
    apply Forall_fmap, Forall_forall. intros t Ht. exact Ht.
  - apply lookup_ge_None in E.
    rewrite sort_by_key_reverse_length in E. simpl in E. lia.
Qed.

(** Where [<] is the strict part of a total preorder on the scores,
    the mode returned is the leftmost option with the greatest score. *)
Variable good : F -> Prop.
Hypothesis flt_asym :
  forall a b, good a -> good b -> flt a b = true -> flt b a = false.
Hypothesis fle_trans :
  forall a b c, good a -> good b -> good c ->
    flt b a = false -> flt c b = false -> flt c a = false.

Lemma recommend_transport_first_max (profile : TravelerProfile) (km : F) :
  Forall (fun t => good (score_of profile km t)) options ->
  exists (t : Transport) (i : nat),
    recommend_transport profile km = Ok t /\
    first_max flt (score_of profile km) options = Some t /\
    options !! i = Some t /\
    forall (j : nat) u, options !! j = Some u ->
      flt (score_of profile km t) (score_of profile km u) = false /\
      ((j < i)%nat ->
       flt (score_of profile km u) (score_of profile km t) = true).
Proof.
  intros Hgood. unfold recommend_transport.
  rewrite (sort_reverse_head flt fst good flt_asym fle_trans);
    [|rewrite scored_list_options; apply Forall_fmap; exact Hgood].
  rewrite scored_list_options, first_max_fmap.
  destruct (first_max_is_Some flt (score_of profile km) options) as [t Ht];
    [discriminate|].
  rewrite Ht. simpl.
  destruct (first_max_spec flt (score_of profile km) good flt_asym fle_trans
              options t Hgood Ht) as (i & Hi & Hmax).
  exists t, i. auto.
Qed.

End Recommend.

(** In binary64 no score is a NaN unless the distance is. *)
Lemma score_of_not_nan (profile : TravelerProfile) (km : spec_float) :
  B64.is_nan km = false ->
  Forall (fun t => B64.is_nan (score_of profile km t) = false) options.
Proof.
  intros Hkm. unfold options, score_of, cost.
  destruct (contains "Low cost" (priorities profile)),
    (contains "Comfort" (priorities profile)),
    (contains "Eco" (priorities profile)),
    (contains "Fast" (priorities profile));
    repeat constructor;
    unfold fadd, fsub, fmul, fdiv, of_int, binary64;
    repeat lazymatch goal with
           | |- B64.is_nan (SFadd _ _ _ _) = false => apply SFadd_not_nan
           | |- B64.is_nan (SFsub _ _ _ _) = false =>
               apply SFsub_zero_not_nan
           | |- B64.is_nan (SFdiv _ _ _ _) = false => apply SFdiv_not_nan
           | |- B64.is_nan (SFmul _ _ _ _) = false => apply SFmul_not_nan
           end;
    try reflexivity; exact Hkm.
Qed.

(** C1.  Whatever the priorities and the distance, [recommend_transport]
    returns one of Car, Train, Plane and Bus; no mode has a higher score
    than the one returned, and every mode standing before it in the order
    Car, Train, Plane, Bus has a strictly lower score (a tie goes to the
    earlier mode).  With no priority selected the answer is Car.  This
    holds in exact arithmetic, and in binary64 for every distance that is
    not a NaN. *)
Theorem recommend_transport_highest_score :
  (forall (profile : TravelerProfile) (km : Q),
     exists (t : Transport) (i : nat),
       recommend_transport profile km = Ok t /\
       (t = Car \/ t = Train \/ t = Plane \/ t = Bus) /\
       first_with_max Qle Qlt (score_of profile km)
         [Car; Train; Plane; Bus] i t /\
       (priorities profile = [] -> t = Car)) /\
  (forall (profile : TravelerProfile) (km : spec_float),
     B64.is_nan km = false ->
     exists (t : Transport) (i : nat),
       recommend_transport profile km = Ok t /\
       (t = Car \/ t = Train \/ t = Plane \/ t = Bus) /\
       first_with_max B64.le B64.lt (score_of profile km)
         [Car; Train; Plane; Bus] i t /\
       (priorities profile = [] -> t = Car)).
Proof.
  split.
  - intros profile km.
    destruct (@recommend_transport_first_max Q exact (fun _ => True)
                (fun a b _ _ => Qltb_asym a b)
                (fun a b c _ _ _ => Qltb_le_trans a b c) profile km)
      as (t & i & Hrec & Hfirst & Hi & Hmax).
    { apply Forall_forall. auto. }
    exists t, i. split; [exact Hrec|]. split; [|split; [split|]].
    + apply elem_of_options. eapply list_elem_of_lookup_2. exact Hi.
    + exact Hi.
    + intros j u Hu. destruct (Hmax j u Hu) as [H1 H2]. split.
      * now apply Qltb_ge.
      * intros Hj. now apply Qltb_lt, H2.
    + intros Hnil. unfold score_of, options in Hfirst.
      rewrite Hnil in Hfirst. simpl in Hfirst. congruence.
  - intros profile km Hkm.
    pose proof (score_of_not_nan profile km Hkm) as Hgood.
    destruct (@recommend_transport_first_max spec_float binary64
                (fun x => B64.is_nan x = false)
                (fun a b _ _ => SFltb_asym a b) SFltb_le_trans profile km
                Hgood)
      as (t & i & Hrec & Hfirst & Hi & Hmax).
    exists t, i. split; [exact Hrec|]. split; [|split; [split|]].
    + apply elem_of_options. eapply list_elem_of_lookup_2. exact Hi.
    + exact Hi.
    + intros j u Hu. destruct (Hmax j u Hu) as [H1 H2].
      apply list_elem_of_lookup_2 in Hu, Hi.
      pose proof (proj1 (Forall_forall _ _) Hgood u Hu) as Hgu.
      pose proof (proj1 (Forall_forall _ _) Hgood t Hi) as Hgt.
      split.
      * now apply SFltb_false_leb.
      * exact H2.
    + intros Hnil. unfold score_of, options in Hfirst.
      rewrite Hnil in Hfirst. vm_compute in Hfirst.
      injection Hfirst as <-. reflexivity.
Qed.

Lemma recommend_transport_highest_score_witness :
  recommend_transport (mkProfile 3500 "normal" [])
    (of_int (F:=spec_float) 600) = Ok Car.
Proof.
  assert (Hkm : B64.is_nan (of_int (F:=spec_float) 600) = false)
    by reflexivity.
  destruct (proj2 recommend_transport_highest_score
              (mkProfile 3500 "normal" []) (of_int 600) Hkm)
    as (t & i & Hrec & _ & _ & Hcar).
  rewrite (Hcar eq_refl) in Hrec. exact Hrec.
Defined.

Lemma contains_decide (x : string) (l : list string) :
  contains x l = if decide (x ∈ l) then true else false.
Proof.
  unfold contains.
  destruct (decide (x ∈ l));
    [rewrite bool_decide_eq_true_2 | rewrite bool_decide_eq_false_2]; done.
Qed.




(** ** [budget_risk] *)

(** The three buckets, whatever the arithmetic. *)
Lemma budget_risk_cases {F : Type} `{PyFloat F} (total budget : F) :
  fis_zero budget = false ->
  budget_risk total budget =
    Ok (if flt (fdiv total budget) (literal 85 2) then "LOW"
        else if fle (fdiv total budget) (literal 10 1) then "MEDIUM"
        else "HIGH").
Proof.
  intros Hb. unfold budget_risk, truediv. rewrite Hb.
  change (Ok (fdiv total budget) ≫= ?f) with (f (fdiv total budget)).
  cbv beta.
  destruct (flt (fdiv total budget) (literal 85 2)); [reflexivity|].
  now destruct (fle (fdiv total budget) (literal 10 1)).
Qed.

Lemma Qle_one (x : Q) : (x <= 10 # 10)%Q <-> (x <= 1)%Q.
Proof. assert (E : (10 # 10 == 1)%Q) by reflexivity. now rewrite E. Qed.

Lemma Qlt_one (x : Q) : (10 # 10 < x)%Q <-> (1 < x)%Q.
Proof. assert (E : (10 # 10 == 1)%Q) by reflexivity. now rewrite E. Qed.

(** C3.  For a total that is not negative and a budget above zero, with
    [ratio = total / budget]: [budget_risk] answers LOW when
    [ratio < 0.85], MEDIUM when [0.85 <= ratio <= 1.0] (both ends
    included) and HIGH when [ratio > 1.0].  This holds in exact arithmetic
    and in binary64. *)
Theorem budget_risk_buckets :
  (forall total budget : Q,
     (0 <= total)%Q -> (0 < budget)%Q ->
     let ratio := (total / budget)%Q in
     ((ratio < 85 # 100)%Q -> budget_risk total budget = Ok "LOW") /\
     ((85 # 100 <= ratio)%Q /\ (ratio <= 1)%Q ->
        budget_risk total budget = Ok "MEDIUM") /\
     ((1 < ratio)%Q -> budget_risk total budget = Ok "HIGH")) /\
  (forall total budget : spec_float,
     B64.le (of_int 0) total -> B64.lt (of_int 0) budget ->
     let ratio := fdiv total budget in
     (B64.lt ratio (literal 85 2) -> budget_risk total budget = Ok "LOW") /\
     (B64.le (literal 85 2) ratio /\ B64.le ratio (literal 10 1) ->
        budget_risk total budget = Ok "MEDIUM") /\
     (B64.lt (literal 10 1) ratio -> budget_risk total budget = Ok "HIGH")).
Proof.
  split.
  - intros total budget _ Hb ratio.
    assert (Hne : fis_zero budget = false).
    { simpl. destruct (Qeq_bool budget 0) eqn:E; [|reflexivity].
      apply Qeq_bool_iff in E. rewrite E in Hb.
      now apply Qlt_irrefl in Hb. }
    rewrite (budget_risk_cases total budget Hne).
    change (fdiv total budget) with ratio.
    change (literal (F:=Q) 85 2) with (85 # 100)%Q.
    change (literal (F:=Q) 10 1) with (10 # 10)%Q.
    change (flt ratio (85 # 100)%Q) with (Qltb ratio (85 # 100)).
    change (fle ratio (10 # 10)%Q) with (Qle_bool ratio (10 # 10)).
    repeat split.
    + intros Hlow. apply Qltb_lt in Hlow. now rewrite Hlow.
    + intros [Hge Hle]. apply Qltb_ge in Hge.
      apply Qle_one, Qle_bool_iff in Hle. now rewrite Hge, Hle.
    + intros Hhigh.
      assert (Hge : (85 # 100 <= ratio)%Q).
      { apply Qlt_le_weak. eapply Qlt_trans; [|exact Hhigh]. reflexivity. }
      apply Qltb_ge in Hge. apply Qlt_one, Qle_bool_false in Hhigh.
      now rewrite Hge, Hhigh.
  - intros total budget _ Hb ratio.
    assert (Hne : fis_zero budget = false).
    { unfold B64.lt in Hb. destruct budget as [[]| | |]; try reflexivity;
        discriminate Hb. }
    rewrite (budget_risk_cases total budget Hne).
    change (fdiv total budget) with ratio.
    change (flt ratio (literal 85 2)) with (SFltb ratio (literal 85 2)).
    change (fle ratio (literal 10 1)) with (SFleb ratio (literal 10 1)).
    unfold B64.lt, B64.le. repeat split.
    + intros Hlow. now rewrite Hlow.
    + intros [Hge Hle]. apply SFleb_ltb_false in Hge. now rewrite Hge, Hle.
    + intros Hhigh.
      assert (Hlt : SFltb (literal 85 2) ratio = true).
      { eapply SFltb_trans; [|exact Hhigh]. reflexivity. }
      rewrite (SFltb_asym _ _ Hlt), (SFltb_leb_false _ _ Hhigh). reflexivity.
Qed.

Lemma budget_risk_buckets_witness :
  budget_risk (of_int (F:=spec_float) 85) (of_int 100) = Ok "MEDIUM".
Proof.
  apply (proj2 budget_risk_buckets (of_int 85) (of_int 100)).
  - reflexivity.
  - reflexivity.
  - split; reflexivity.
Defined.

(** * The script *)

Lemma bind_Ok_inv {A B} (m : result A) (f : A -> result B) (b : B) :
  m ≫= f = Ok b -> exists a, m = Ok a /\ f a = Ok b.
Proof. destruct m as [a|e]; [eauto | discriminate]. Qed.

Lemma Zsum_scale {A} (f : A -> Z) (k : Z) (l : list A) :
  Zsum (map (fun x => f x * (2 * k)) l) = 2 * Zsum (map (fun x => f x * k) l).
Proof. induction l as [|x l IH]; simpl; lia. Qed.

(** ** [max] with a key *)

Section Max.
Context {A : Type}.
Variable key : A -> result Z.
Variable rating : A -> Z.

Lemma max_loop_spec (l pre : list A) (i : nat) (m : A) :
  (forall x, x ∈ l -> key x = Ok (rating x)) ->
  first_with_max Z.le Z.lt rating pre i m ->
  exists (i' : nat) (top : A),
    max_loop key l m (rating m) = Ok top /\
    first_with_max Z.le Z.lt rating (pre ++ l) i' top.
Proof.
  revert pre i m.
  induction l as [|x l IH]; intros pre i m Hkey Hmax; simpl.
  - exists i, m. now rewrite app_nil_r.
  - rewrite (Hkey x) by apply list_elem_of_here. simpl.
    destruct Hmax as [Hi Hmax].
    assert (Hlen : (i < length pre)%nat) by (eapply lookup_lt_Some; eauto).
    assert (Hkey' : forall y, y ∈ l -> key y = Ok (rating y)).
    { intros y Hy. apply Hkey. now apply list_elem_of_further. }
    replace (pre ++ x :: l) with ((pre ++ [x]) ++ l)
      by now rewrite <- app_assoc.
    destruct (Z.ltb_spec (rating m) (rating x)) as [Hlt|Hge].
    + apply (IH (pre ++ [x]) (length pre) x Hkey'). split.
      * now rewrite lookup_app_r, Nat.sub_diag by lia.
      * intros j y Hy. apply lookup_app_Some in Hy as [Hy|[Hj Hy]].
        -- destruct (Hmax j y Hy) as [Hle _]. lia.
        -- apply list_lookup_singleton_Some in Hy as [_ <-]. lia.
    + apply (IH (pre ++ [x]) i m Hkey'). split.
      * now rewrite lookup_app_l by lia.
      * intros j y Hy. apply lookup_app_Some in Hy as [Hy|[Hj Hy]].
        -- exact (Hmax j y Hy).
        -- apply list_lookup_singleton_Some in Hy as [_ <-]. lia.
Qed.

(** [max(l, key=...)] returns the first item with the greatest key. *)
Lemma py_max_spec (l : list A) :
  (forall x, x ∈ l -> key x = Ok (rating x)) ->
  l <> [] ->
  exists (i : nat) (top : A),
    py_max key l = Ok top /\ first_with_max Z.le Z.lt rating l i top.
Proof.
  intros Hkey Hne. destruct l as [|x l]; [contradiction|]. simpl.
  rewrite (Hkey x) by apply list_elem_of_here. simpl.
  apply (max_loop_spec l [x] 0%nat x).
  - intros y Hy. apply Hkey. now apply list_elem_of_further.
  - split; [reflexivity|].
    intros [|j] y Hy; simpl in Hy; [|discriminate].
    injection Hy as <-. lia.
Qed.

End Max.

Lemma city_key (f : City -> Z) (names : list string) (cs : list City) :
  cities_of names cs ->
  forall x, x ∈ names ->
    (city ← getitem CITIES x; Ok (f city)) = Ok (rating_of f x).
Proof.
  intros Hcs x Hx. apply list_elem_of_lookup_1 in Hx as [i Hi].
  destruct (Forall2_lookup_l _ _ _ _ _ Hcs Hi) as (city & _ & Hcity).
  unfold getitem, rating_of. now rewrite Hcity.
Qed.

Section Script.
Context {F : Type} `{PyFloat F}.

(** ** The city cards *)

Lemma city_cards_from (names : list string) (cs : list City) (d h f : Z)
    (cards : list (string * F)) :
  cities_of names cs ->
  foldl (fun acc c =>
           '(hotel_total, food_total, cards) ← acc;
           city ← getitem CITIES c;
           Ok (hotel_total + hotel city * d, food_total + food city * d,
               cards ++ [(city_name city, score city)]))
        (Ok (h, f, cards)) names
  = Ok (h + Zsum (map (fun c => hotel c * d) cs),
        f + Zsum (map (fun c => food c * d) cs),
        cards ++ map (fun c => (city_name c, score c)) cs).
Proof.
  intros Hcs. revert h f cards.
  induction Hcs as [|c city names cs Hc Hcs IH]; intros h f cards; simpl.
  - now rewrite !Z.add_0_r, app_nil_r.
  - unfold getitem at 2. rewrite Hc. simpl. rewrite IH.
    rewrite <- app_assoc. simpl. do 3 f_equal; lia.
Qed.

Lemma city_cards_ok (names : list string) (cs : list City) (d : Z) :
  cities_of names cs ->
  city_cards names d
  = Ok (Zsum (map (fun c => hotel c * d) cs),
        Zsum (map (fun c => food c * d) cs),
        map (fun c => (city_name c, score c)) cs).
Proof. intros Hcs. unfold city_cards. now rewrite (city_cards_from _ cs). Qed.

(** ** The insights *)

(** On a route of catalog cities the insights part never raises. *)
Lemma insights_total (cities : list string) (cs : list City)
    (priorities : list string) (t : Transport (F:=F)) :
  cities_of cities cs -> cities <> [] ->
  exists msgs : list widget, insights cities priorities t = Ok msgs.
Proof.
  intros Hcs Hne.
  destruct (py_max_spec _ (rating_of nightlife) cities
              (city_key nightlife cities cs Hcs) Hne) as (? & ? & Hn & _).
  destruct (py_max_spec _ (rating_of culture) cities
              (city_key culture cities cs Hcs) Hne) as (? & ? & Hc & _).
  unfold insights. rewrite Hn, Hc.
  destruct (contains "Nightlife" priorities);
    destruct (contains "Culture" priorities); eexists; reflexivity.
Qed.


(** ** The page *)

(** The script runs to the end on every route of catalog cities, and this
    is the page it shows. *)
Lemma plan_page (cities : list string) (cs : list City) (budget d : Z)
    (prios : list string) :
  converts_nonzero F ->
  cities_of cities cs -> cities <> [] -> budget <> 0 ->
  let km := (Z.of_nat (length cities) - 1) * 300 in
  let hotels := Zsum (map (fun c => hotel c * d) cs) in
  let foods := Zsum (map (fun c => food c * d) cs) in
  exists (t : Transport) (msgs : list widget),
    recommend_transport (mkProfile budget "normal" prios) (of_int km) = Ok t /\
    insights cities prios t = Ok msgs /\
    plan cities budget d prios =
      Ok {| km_total := km;
            transport := t;
            n_cities := Z.of_nat (length cities);
            n_days := Z.of_nat (length cities) * d;
            cards := map (fun c => (city_name c, score c)) cs;
            hotel_total := hotels;
            food_total := foods;
            transport_cost := (of_int km * price_km t)%py;
            transport_time := (of_int km / of_int (speed t))%py;
            total_cost := (of_int (hotels + foods) + of_int km * price_km t)%py;
            risk :=
              (let ratio :=
                 ((of_int (hotels + foods) + of_int km * price_km t)
                  / of_int budget)%py in
               if (ratio <? literal 85 2)%py then "LOW"
               else if (ratio <=? literal 10 1)%py then "MEDIUM" else "HIGH");
            messages := msgs |}.
Proof.
  intros Hconv Hcs Hne Hb km hotels foods.
  destruct (recommend_transport_total
              (mkProfile budget "normal" prios) (of_int km))
    as (t & Hrec & Hopt).
  destruct (insights_total cities cs prios t Hcs Hne) as (msgs & Hmsgs).
  exists t, msgs. split; [exact Hrec|]. split; [exact Hmsgs|].
  unfold plan. change DISTANCE_PER_SEGMENT with 300. fold km.
  rewrite Hrec. cbn [mbind result_bind].
  rewrite (city_cards_ok cities cs d Hcs). cbn [mbind result_bind].
  fold hotels foods.
  unfold time, truediv. rewrite (Hconv (speed t)).
  2:{ apply elem_of_options in Hopt.
      destruct Hopt as [ -> | [ -> | [ -> | -> ]]]; discriminate. }
  cbn [mbind result_bind].
  rewrite budget_risk_cases by now apply Hconv.
  cbn [mbind result_bind].
  rewrite Hmsgs. reflexivity.
Qed.

(** What a finished run of the script went through. *)
Lemma plan_inv (cities : list string) (budget d : Z) (prios : list string)
    (page : Page) :
  plan cities budget d prios = Ok page ->
  recommend_transport (mkProfile budget "normal" prios)
    (of_int ((Z.of_nat (length cities) - 1) * DISTANCE_PER_SEGMENT))
    = Ok (transport page) /\
  insights cities prios (transport page) = Ok (messages page).
Proof.
  unfold plan. intros Hplan.
  apply bind_Ok_inv in Hplan as (t & Hrec & Hplan).
  apply bind_Ok_inv in Hplan as ([[h f] cards] & _ & Hplan).
  apply bind_Ok_inv in Hplan as (tt & _ & Hplan).
  apply bind_Ok_inv in Hplan as (r & _ & Hplan).
  apply bind_Ok_inv in Hplan as (msgs & Hmsgs & Hplan).
  injection Hplan as <-. simpl. split; assumption.
Qed.

End Script.

(** C7.  On a route whose cities are all in the catalog: under
    "Nightlife" the script reports the city of the route with the greatest
    nightlife rating, the first such city in route order; under "Culture"
    the same for the culture rating; and the conflict warning is shown
    exactly when "Eco" is selected and the eco rating of the recommended
    mode is below 5.  Nothing else is reported. *)
Theorem insights_rules {F : Type} `{PyFloat F}
    (cities : list string) (cs : list City) (priorities : list string)
    (t : Transport (F:=F)) :
  cities_of cities cs -> cities <> [] ->
  exists (i_n : nat) (top_n : string) (i_c : nat) (top_c : string),
    first_with_max Z.le Z.lt (rating_of nightlife) cities i_n top_n /\
    first_with_max Z.le Z.lt (rating_of culture) cities i_c top_c /\
    insights cities priorities t =
      Ok ((if decide ("Nightlife" ∈ priorities)
           then [st_info ("🌃 Best nightlife on this route: " +:+ top_n)]
           else [])
          ++ (if decide ("Culture" ∈ priorities)
              then [st_info ("🎭 Cultural highlight: " +:+ top_c)]
              else [])
          ++ (if decide ("Eco" ∈ priorities /\ eco t < 5)
              then [eco_conflict] else [])).
Proof.
  intros Hcs Hne.
  destruct (py_max_spec _ (rating_of nightlife) cities
              (city_key nightlife cities cs Hcs) Hne)
    as (i_n & top_n & Hn & Hmax_n).
  destruct (py_max_spec _ (rating_of culture) cities
              (city_key culture cities cs Hcs) Hne)
    as (i_c & top_c & Hc & Hmax_c).
  exists i_n, top_n, i_c, top_c. split; [exact Hmax_n|]. split; [exact Hmax_c|].
  unfold insights, eco_conflict. rewrite Hn, Hc, !contains_decide.
  destruct (decide ("Nightlife" ∈ priorities));
    destruct (decide ("Culture" ∈ priorities));
    destruct (decide ("Eco" ∈ priorities));
    destruct (Z.ltb_spec (eco t) 5);
    simpl;
    repeat match goal with
           | |- context [decide ?P] =>
               destruct (decide P) as [[? ?]|?]; try lia; try tauto
           end;
    reflexivity.
Qed.

Lemma insights_rules_witness :
  exists (i_n : nat) (top_n : string) (i_c : nat) (top_c : string),
    first_with_max Z.le Z.lt (rating_of nightlife)
      ["Sofia"; "Belgrade"; "Budapest"] i_n top_n /\
    first_with_max Z.le Z.lt (rating_of culture)
      ["Sofia"; "Belgrade"; "Budapest"] i_c top_c /\
    insights ["Sofia"; "Belgrade"; "Budapest"] ["Culture"; "Eco"]
      (Plane (F:=spec_float)) =
      Ok ((if decide ("Nightlife" ∈ ["Culture"; "Eco"])
           then [st_info ("🌃 Best nightlife on this route: " +:+ top_n)]
           else [])
          ++ (if decide ("Culture" ∈ ["Culture"; "Eco"])
              then [st_info ("🎭 Cultural highlight: " +:+ top_c)]
              else [])
          ++ (if decide ("Eco" ∈ ["Culture"; "Eco"]
                         /\ eco (Plane (F:=spec_float)) < 5)
              then [eco_conflict] else [])).
Proof.
  apply (insights_rules ["Sofia"; "Belgrade"; "Budapest"]
           [mkCity "Sofia" "Bulgaria" 70 20 7 8 6 6 8;
            mkCity "Belgrade" "Serbia" 65 22 6 7 6 7 7;
            mkCity "Budapest" "Hungary" 75 23 8 8 7 8 8]).
  - repeat constructor.
  - discriminate.
Defined.

(** ** Cost aggregation *)

(** C4.  For a route of [n] catalog cities and [d] days per city the script
    computes: the distance [(n - 1) * 300]; the hotel total and the food
    total as the sums of [hotel(c) * d] and [food(c) * d] over the cities of
    the route; the transport cost [distance * price_km] and the transport
    time [distance / speed] of the recommended mode; and the grand total as
    hotel total plus food total plus transport cost.  This holds in exact
    arithmetic and in binary64 ([exact_converts_nonzero],
    [binary64_converts_nonzero]), for every budget that is not zero. *)
Theorem cost_aggregation {F : Type} `{PyFloat F}
    (cities : list string) (cs : list City) (budget d : Z)
    (prios : list string) :
  converts_nonzero F ->
  cities_of cities cs -> cities <> [] -> budget <> 0 ->
  exists page : Page,
    plan cities budget d prios = Ok page /\
    km_total page = (Z.of_nat (length cities) - 1) * 300 /\
    recommend_transport (mkProfile budget "normal" prios)
      (of_int (km_total page)) = Ok (transport page) /\
    hotel_total page = Zsum (map (fun c => hotel c * d) cs) /\
    food_total page = Zsum (map (fun c => food c * d) cs) /\
    transport_cost page
      = (of_int (km_total page) * price_km (transport page))%py /\
    transport_time page
      = (of_int (km_total page) / of_int (speed (transport page)))%py /\
    total_cost page
      = (of_int (hotel_total page + food_total page)
         + transport_cost page)%py.
Proof.
  intros Hconv Hcs Hne Hb.
  destruct (plan_page cities cs budget d prios Hconv Hcs Hne Hb)
    as (t & msgs & Hrec & _ & Hplan).
  eexists. split; [exact Hplan|]. simpl.
  repeat split; try reflexivity. exact Hrec.
Qed.

Lemma cost_aggregation_witness :
  exists page : Page (F:=spec_float),
    plan ["Sofia"; "Belgrade"; "Budapest"] 3500 3 ["Eco"] = Ok page /\
    km_total page
      = (Z.of_nat (length ["Sofia"; "Belgrade"; "Budapest"]) - 1) * 300 /\
    recommend_transport (mkProfile 3500 "normal" ["Eco"])
      (of_int (km_total page)) = Ok (transport page) /\
    hotel_total page
      = Zsum (map (fun c => hotel c * 3)
                [mkCity "Sofia" "Bulgaria" 70 20 7 8 6 6 8;
                 mkCity "Belgrade" "Serbia" 65 22 6 7 6 7 7;
                 mkCity "Budapest" "Hungary" 75 23 8 8 7 8 8]) /\
    food_total page
      = Zsum (map (fun c => food c * 3)
                [mkCity "Sofia" "Bulgaria" 70 20 7 8 6 6 8;
                 mkCity "Belgrade" "Serbia" 65 22 6 7 6 7 7;
                 mkCity "Budapest" "Hungary" 75 23 8 8 7 8 8]) /\
    transport_cost page
      = (of_int (km_total page) * price_km (transport page))%py /\
    transport_time page
      = (of_int (km_total page) / of_int (speed (transport page)))%py /\
    total_cost page
      = (of_int (hotel_total page + food_total page)
         + transport_cost page)%py.
Proof.
  apply (cost_aggregation ["Sofia"; "Belgrade"; "Budapest"]
           [mkCity "Sofia" "Bulgaria" 70 20 7 8 6 6 8;
            mkCity "Belgrade" "Serbia" 65 22 6 7 6 7 7;
            mkCity "Budapest" "Hungary" 75 23 8 8 7 8 8] 3500 3 ["Eco"]).
  - exact binary64_converts_nonzero.
  - repeat constructor.
  - discriminate.
  - lia.
Defined.

(** C6.  Doubling the days per city doubles the hotel total and the food
    total, and leaves the recommended mode and the transport cost as they
    were.  This holds in exact arithmetic and in binary64. *)
Theorem days_scaling {F : Type} `{PyFloat F}
    (cities : list string) (cs : list City) (budget d : Z)
    (prios : list string) :
  converts_nonzero F ->
  cities_of cities cs -> cities <> [] -> budget <> 0 ->
  exists p1 p2 : Page (F:=F),
    plan cities budget d prios = Ok p1 /\
    plan cities budget (2 * d) prios = Ok p2 /\
    hotel_total p2 = 2 * hotel_total p1 /\
    food_total p2 = 2 * food_total p1 /\
    transport p2 = transport p1 /\
    transport_cost p2 = transport_cost p1.
Proof.
  intros Hconv Hcs Hne Hb.
  destruct (plan_page cities cs budget d prios Hconv Hcs Hne Hb)
    as (t1 & msgs1 & Hrec1 & _ & Hplan1).
  destruct (plan_page cities cs budget (2 * d) prios Hconv Hcs Hne Hb)
    as (t2 & msgs2 & Hrec2 & _ & Hplan2).
  rewrite Hrec1 in Hrec2. injection Hrec2 as <-.
  eexists _, _. split; [exact Hplan1|]. split; [exact Hplan2|]. simpl.
  split; [apply Zsum_scale|]. split; [apply Zsum_scale|]. split; reflexivity.
Qed.

Lemma days_scaling_witness :
  exists p1 p2 : Page (F:=spec_float),
    plan ["Munich"; "Vienna"; "Prague"; "Budapest"] 3500 3 ["Low cost"]
      = Ok p1 /\
    plan ["Munich"; "Vienna"; "Prague"; "Budapest"] 3500 (2 * 3) ["Low cost"]
      = Ok p2 /\
    hotel_total p2 = 2 * hotel_total p1 /\
    food_total p2 = 2 * food_total p1 /\
    transport p2 = transport p1 /\
    transport_cost p2 = transport_cost p1.
Proof.
  apply (days_scaling ["Munich"; "Vienna"; "Prague"; "Budapest"]
           [mkCity "Munich" "Germany" 100 28 9 9 8 6 8;
            mkCity "Vienna" "Austria" 95 30 9 9 8 6 9;
            mkCity "Prague" "Czech Republic" 85 25 8 8 9 7 9;
            mkCity "Budapest" "Hungary" 75 23 8 8 7 8 8] 3500 3 ["Low cost"]).
  - exact binary64_converts_nonzero.
  - repeat constructor.
  - discriminate.
  - lia.
Defined.

(** ** Eco never picks the plane *)




Lemma ROUTES_lookup (name : string) (cities : list string) :
  ROUTES !! name = Some cities ->
  (name, cities) ∈
    [("Balkan Core", ["Sofia"; "Belgrade"; "Budapest"]);
     ("Central Europe", ["Munich"; "Vienna"; "Prague"; "Budapest"]);
     ("Grand Explorer",
        ["Sofia"; "Belgrade"; "Budapest"; "Vienna"; "Prague"; "Munich"])].
Proof. apply elem_of_list_to_map_2. Qed.

(** The distance of a route of the catalog is 600, 900 or 1500. *)
Lemma ROUTES_distance (name : string) (cities : list string) :
  ROUTES !! name = Some cities ->
  (Z.of_nat (length cities) - 1) * DISTANCE_PER_SEGMENT ∈ [600; 900; 1500].
Proof.
  intros Hr. apply ROUTES_lookup in Hr.
  repeat (apply elem_of_cons in Hr as [[= _ ->]|Hr];
          [apply list_elem_of_In; simpl; auto|]).
  now apply elem_of_nil in Hr.
Qed.



(** ** Rounding *)

Lemma round_half_even_near (y : Q) :
  (inject_Z (round_half_even y) - y <= 1 # 2)%Q /\
  (y - inject_Z (round_half_even y) <= 1 # 2)%Q.
Proof.
  unfold round_half_even.
  pose proof (Qfloor_le y) as Hlo. pose proof (Qlt_floor y) as Hhi.
  rewrite inject_Z_plus in Hhi. change (inject_Z 1) with 1%Q in Hhi.
  set (n := Qfloor y) in *.
  destruct (y - inject_Z n ?= 1 # 2)%Q eqn:E.
  - apply Qeq_alt in E.
    destruct (Z.even n); rewrite ?inject_Z_plus;
      change (inject_Z 1) with 1%Q; lra.
  - apply Qlt_alt in E. lra.
  - apply Qgt_alt in E. rewrite inject_Z_plus.
    change (inject_Z 1) with 1%Q. lra.
Qed.

(** [Qround_ndigits x k] has [k] decimals and lies within half a unit of
    the last decimal of [x]. *)
Lemma Qround_ndigits_rounded (x : Q) (k : nat) :
  rounded_to k x (Qround_ndigits x k).
Proof.
  unfold rounded_to, Qround_ndigits.
  set (p := pow10 k). set (y := (x * inject_Z (Zpos p))%Q).
  split; [eexists; reflexivity|].
  destruct (round_half_even_near y) as [H1 H2].
  set (n := round_half_even y) in *.
  assert (Hp : (0 < inject_Z (Zpos p))%Q) by reflexivity.
  assert (En : (n # p == inject_Z n / inject_Z (Zpos p))%Q)
    by apply Qmake_Qdiv.
  assert (Ex : (x == y / inject_Z (Zpos p))%Q).
  { unfold y. field. intros E. rewrite E in Hp. discriminate. }
  assert (Eh : (1 # 2 * p == (1 # 2) / inject_Z (Zpos p))%Q).
  { rewrite (Qmake_Qdiv 1 (2 * p)), (Qmake_Qdiv 1 2).
    change (Zpos (2 * p)) with (2 * Zpos p)%Z. rewrite inject_Z_mult.
    field. intros E. rewrite E in Hp. discriminate. }
  clearbody n. clearbody y.
  apply Qabs_Qle_condition. rewrite En, Eh, Ex.
  set (q := inject_Z (Zpos p)) in *.
  assert (Hdiv : forall a b : Q, (a <= b)%Q -> (a / q <= b / q)%Q).
  { intros a b Hab. unfold Qdiv. apply Qmult_le_compat_r; [exact Hab|].
    apply Qlt_le_weak, Qinv_lt_0_compat, Hp. }
  assert (E1 : (- ((1 # 2) / q) == (- (1 # 2)) / q)%Q)
    by (unfold Qdiv; ring).
  assert (E2 : (inject_Z n / q - y / q == (inject_Z n - y) / q)%Q)
    by (unfold Qdiv; ring).
  rewrite E1, E2. split; apply Hdiv; lra.
Qed.

(** ** The catalog *)

Lemma CITIES_lookup (name : string) (c : City) :
  CITIES !! name = Some c ->
  (name, c) ∈ [("Sofia", mkCity "Sofia" "Bulgaria" 70 20 7 8 6 6 8);
               ("Belgrade", mkCity "Belgrade" "Serbia" 65 22 6 7 6 7 7);
               ("Budapest", mkCity "Budapest" "Hungary" 75 23 8 8 7 8 8);
               ("Vienna", mkCity "Vienna" "Austria" 95 30 9 9 8 6 9);
               ("Prague", mkCity "Prague" "Czech Republic" 85 25 8 8 9 7 9);
               ("Munich", mkCity "Munich" "Germany" 100 28 9 9 8 6 8)].
Proof. apply elem_of_list_to_map_2. Qed.

Lemma score_mean (c : City) :
  score (F:=Q) c
  = Qround_ndigits (mean [safety c; internet c; walkability c; culture c]) 2.
Proof.
  unfold score, mean. simpl. do 3 f_equal. unfold Zsum. simpl. lia.
Qed.

(** C5.  For every city of the catalog the score is the arithmetic mean of
    the four ratings safety, internet, walkability and culture, rounded to
    2 decimals; a record that agrees on these four has the same score,
    whatever its hotel price, food price and nightlife rating; and the
    double CPython computes is that same number. *)
Theorem city_score_mean (name : string) (c : City) :
  CITIES !! name = Some c ->
  let m := mean [safety c; internet c; walkability c; culture c] in
  score (F:=Q) c = Qround_ndigits m 2 /\
  rounded_to 2 m (score (F:=Q) c) /\
  (forall c' : City,
     safety c' = safety c -> internet c' = internet c ->
     walkability c' = walkability c -> culture c' = culture c ->
     score (F:=Q) c' = score (F:=Q) c) /\
  (exists q : Q,
     B64.to_Q (score (F:=spec_float) c) = Some q /\
     (q == score (F:=Q) c)%Q).
Proof.
  intros Hc m. split; [apply score_mean|].
  split; [rewrite score_mean; apply Qround_ndigits_rounded|].
  split.
  - intros c' Hs Hi Hw Hcu. unfold score. now rewrite Hs, Hi, Hw, Hcu.
  - apply CITIES_lookup in Hc.
    repeat (apply elem_of_cons in Hc as [[= _ ->]|Hc];
            [eexists; split; [vm_compute; reflexivity | reflexivity]|]).
    now apply elem_of_nil in Hc.
Qed.

Lemma city_score_mean_witness :
  let c := mkCity "Sofia" "Bulgaria" 70 20 7 8 6 6 8 in
  let m := mean [safety c; internet c; walkability c; culture c] in
  score (F:=Q) c = Qround_ndigits m 2 /\
  rounded_to 2 m (score (F:=Q) c) /\
  (forall c' : City,
     safety c' = safety c -> internet c' = internet c ->
     walkability c' = walkability c -> culture c' = culture c ->
     score (F:=Q) c' = score (F:=Q) c) /\
  (exists q : Q,
     B64.to_Q (score (F:=spec_float) c) = Some q /\
     (q == score (F:=Q) c)%Q).
Proof.
  apply (city_score_mean "Sofia" (mkCity "Sofia" "Bulgaria" 70 20 7 8 6 6 8)).
  reflexivity.
Defined.

(** C9.  Every route of the catalog lists at least one city, and every
    city it lists is a key of [CITIES]. *)
Theorem routes_well_formed (route_name : string) (cities : list string) :
  ROUTES !! route_name = Some cities ->
  cities <> [] /\ Forall (fun c => is_Some (CITIES !! c)) cities.
Proof.
  intros Hr. apply ROUTES_lookup in Hr.
  repeat (apply elem_of_cons in Hr as [[= _ ->]|Hr];
          [split; [discriminate | repeat constructor; eexists; reflexivity]|]).
  now apply elem_of_nil in Hr.
Qed.

Lemma routes_well_formed_witness :
  ["Munich"; "Vienna"; "Prague"; "Budapest"] <> [] /\
  Forall (fun c => is_Some (CITIES !! c))
    ["Munich"; "Vienna"; "Prague"; "Budapest"].
Proof.
  apply (routes_well_formed "Central Europe"
           ["Munich"; "Vienna"; "Prague"; "Budapest"]).
  reflexivity.
Defined.

(** ** The worked scenarios *)

(** C8.  On the shipped catalog, "Balkan Core" is Sofia, Belgrade, Budapest
    and its distance is 600.  Under "Eco" the scores are Car 12, Train 18,
    Plane 6, Bus 14 and the train is recommended; with 3 days per city the
    hotel total is 630, the food total 195, the transport cost 108 and the
    grand total 933, which a budget of 3500 rates LOW.  Under "Low cost"
    the scores are Car -1.5, Train -1.08, Plane -2.7, Bus -0.72 and the bus
    is recommended.  This holds in exact arithmetic and, figure for figure,
    in binary64. *)
Theorem balkan_core_scenarios :
  ROUTES !! "Balkan Core" = Some ["Sofia"; "Belgrade"; "Budapest"] /\
  (exists page : Page (F:=Q),
     main "Balkan Core" 3500 3 ["Eco"] = Ok page /\
     km_total page = 600 /\
     Forall2 Qeq (scores (mkProfile 3500 "normal" ["Eco"]) 600%Q)
       [12; 18; 6; 14]%Q /\
     transport page = Train /\
     hotel_total page = 630 /\ food_total page = 195 /\
     (transport_cost page == 108)%Q /\ (total_cost page == 933)%Q /\
     risk page = "LOW") /\
  (exists page : Page (F:=Q),
     main "Balkan Core" 3500 3 ["Low cost"] = Ok page /\
     Forall2 Qeq (scores (mkProfile 3500 "normal" ["Low cost"]) 600%Q)
       [- (15 # 10); - (108 # 100); - (27 # 10); - (72 # 100)]%Q /\
     transport page = Bus) /\
  (exists page : Page (F:=spec_float),
     main "Balkan Core" 3500 3 ["Eco"] = Ok page /\
     km_total page = 600 /\
     scores (mkProfile 3500 "normal" ["Eco"]) (of_int 600)
       = [of_int 12; of_int 18; of_int 6; of_int 14] /\
     transport page = Train /\
     hotel_total page = 630 /\ food_total page = 195 /\
     transport_cost page = of_int 108 /\ total_cost page = of_int 933 /\
     risk page = "LOW") /\
  (exists page : Page (F:=spec_float),
     main "Balkan Core" 3500 3 ["Low cost"] = Ok page /\
     scores (mkProfile 3500 "normal" ["Low cost"]) (of_int 600)
       = [SFopp (literal 15 1); SFopp (literal 108 2);
          SFopp (literal 27 1); SFopp (literal 72 2)] /\
     transport page = Bus).
Proof.
  split; [reflexivity|].
  split; [|split; [|split]]; eexists; (split; [vm_compute; reflexivity|]).
  - repeat split; try reflexivity; repeat constructor.
  - split; [|reflexivity]. vm_compute. repeat constructor.
  - repeat split; vm_compute; reflexivity.
  - split; vm_compute; reflexivity.
Qed.

(** ** Binary64 on the inputs the page can produce *)

(** On the three distances of the catalog the rounding of binary64 never
    changes the recommendation, whatever the priorities. *)
Lemma binary64_same_recommendation (profile : TravelerProfile) (km : Z) :
  km ∈ [600; 900; 1500] -> same_choice profile km = true.
Proof.
  intros Hkm. unfold same_choice, recommend_transport, scored_list, score_of.
  destruct (contains "Low cost" (priorities profile)),
    (contains "Comfort" (priorities profile)),
    (contains "Eco" (priorities profile)),
    (contains "Fast" (priorities profile));
    repeat (apply elem_of_cons in Hkm as [->|Hkm]; [vm_compute; reflexivity|]);
    now apply elem_of_nil in Hkm.
Qed.

(** The boundaries of [budget_risk] in binary64: a ratio of exactly 0.85
    and of exactly 1.0 is MEDIUM, 1.0000001 is HIGH. *)
Lemma budget_risk_binary64_boundaries :
  budget_risk (F:=spec_float) (of_int 85) (of_int 100) = Ok "MEDIUM" /\
  budget_risk (F:=spec_float) (of_int 2975) (of_int 3500) = Ok "MEDIUM" /\
  budget_risk (F:=spec_float) (of_int 3500) (of_int 3500) = Ok "MEDIUM" /\
  budget_risk (F:=spec_float) (literal 10000001 7) (of_int 1) = Ok "HIGH" /\
  budget_risk (F:=spec_float) (of_int 933) (of_int 0) = Raise ZeroDivisionError.
Proof. repeat split; vm_compute; reflexivity. Qed.

Lemma binary64_same_recommendation_witness :
  same_choice (mkProfile 3500 "normal" ["Low cost"; "Fast"; "Eco"]) 1500 = true.
Proof.
  apply binary64_same_recommendation.
  apply list_elem_of_further, list_elem_of_further, list_elem_of_here.
Defined.

(** * Further properties of the script *)

(** ** Runs that end normally and runs that raise *)

Lemma ROUTES_cities (name : string) (cities : list string) :
  ROUTES !! name = Some cities ->
  cities <> [] /\ exists cs : list City, cities_of cities cs.
Proof.
  intros Hr. apply ROUTES_lookup in Hr.
  repeat (apply elem_of_cons in Hr as [[= _ ->]|Hr];
          [split; [discriminate | eexists; repeat constructor]|]).
  now apply elem_of_nil in Hr.
Qed.

(** Whatever the sidebar hands over, the script runs to the end: the
    distance is 600, 900 or 1500, the mode is one of the four options and
    the risk one of the three labels.  This holds in exact arithmetic and
    in binary64. *)
Theorem main_runs {F : Type} `{PyFloat F}
    (route_name : string) (budget days_city : Z) (priorities : list string) :
  converts_nonzero F ->
  valid_sidebar route_name budget days_city priorities ->
  exists page : Page (F:=F),
    main route_name budget days_city priorities = Ok page /\
    km_total page ∈ [600; 900; 1500] /\
    transport page ∈ options /\
    risk page ∈ ["LOW"; "MEDIUM"; "HIGH"].
Proof.
  intros Hconv ([cities Hr] & Hb & _).
  destruct (ROUTES_cities _ _ Hr) as (Hne & cs & Hcs).
  destruct (plan_page cities cs budget days_city priorities Hconv Hcs Hne)
    as (t & msgs & Hrec & _ & Hplan); [lia|].
  unfold main, getitem. rewrite Hr. cbn [mbind result_bind].
  eexists. split; [exact Hplan|]. cbn [km_total transport risk].
  split; [|split].
  - exact (ROUTES_distance _ _ Hr).
  - destruct (recommend_transport_total
                (mkProfile budget "normal" priorities)
                (of_int ((Z.of_nat (length cities) - 1) * 300)))
      as (t' & Hrec' & Ht').
    rewrite Hrec in Hrec'. now injection Hrec' as <-.
  - cbv zeta.
    repeat match goal with
           | |- context [if ?b then _ else _] => destruct b
           end;
      auto using list_elem_of_here, list_elem_of_further.
Qed.

Lemma main_runs_witness :
  exists page : Page (F:=spec_float),
    main "Grand Explorer" 500 7 ["Culture"; "Low cost"] = Ok page /\
    km_total page ∈ [600; 900; 1500] /\
    transport page ∈ options /\
    risk page ∈ ["LOW"; "MEDIUM"; "HIGH"].
Proof.
  apply main_runs.
  - exact binary64_converts_nonzero.
  - split; [eexists; reflexivity|]. split; [lia|]. split; [lia|].
    split.
    + apply (bool_decide_unpack (NoDup ["Culture"; "Low cost"])).
      vm_compute. exact I.
    + intros x Hx. apply elem_of_cons in Hx as [ -> |Hx];
        [|apply elem_of_cons in Hx as [ -> |Hx]];
        [ | |now apply elem_of_nil in Hx];
        apply list_elem_of_In; simpl; auto 10.
Defined.

Section Raises.
Context {F : Type} `{PyFloat F}.

(** Once an exception is raised, the rest of the loop over the cities
    leaves it as it is. *)
Lemma city_cards_raised (names : list string) (d : Z) (e : exn) :
  foldl (fun acc c =>
           '(hotel_total, food_total, cards) ← acc;
           city ← getitem CITIES c;
           Ok (hotel_total + hotel city * d, food_total + food city * d,
               cards ++ [(city_name city, score (F:=F) city)]))
        (Raise e) names
  = Raise e.
Proof. induction names as [|c names IH]; simpl; [reflexivity | exact IH]. Qed.

Lemma city_cards_unknown (pre post : list string) (c : string)
    (cs : list City) (d : Z) :
  cities_of pre cs -> CITIES !! c = None ->
  city_cards (F:=F) (pre ++ c :: post) d = Raise (KeyError c).
Proof.
  intros Hcs Hc. unfold city_cards.
  rewrite foldl_app, (city_cards_from pre cs) by exact Hcs.
  simpl. unfold getitem at 2. rewrite Hc. simpl. apply city_cards_raised.
Qed.

End Raises.

(** A route that names a city the catalog does not have makes the script
    raise [KeyError] with the first such name, whatever the other inputs
    and the arithmetic. *)
Theorem plan_unknown_city {F : Type} `{PyFloat F}
    (pre post : list string) (c : string) (cs : list City)
    (budget d : Z) (prios : list string) :
  cities_of pre cs -> CITIES !! c = None ->
  plan (F:=F) (pre ++ c :: post) budget d prios = Raise (KeyError c).
Proof.
  intros Hcs Hc. unfold plan.
  destruct (recommend_transport_total
              (mkProfile budget "normal" prios)
              (of_int ((Z.of_nat (length (pre ++ c :: post)) - 1)
                       * DISTANCE_PER_SEGMENT)))
    as (t & Hrec & _).
  rewrite Hrec. cbn [mbind result_bind].
  now rewrite (city_cards_unknown pre post c cs d Hcs Hc).
Qed.

Lemma plan_unknown_city_witness :
  plan (F:=spec_float) (["Sofia"; "Vienna"] ++ "Paris" :: ["Atlantis"])
    3500 3 ["Eco"] = Raise (KeyError "Paris").
Proof.
  apply (plan_unknown_city ["Sofia"; "Vienna"] ["Atlantis"] "Paris"
           [mkCity "Sofia" "Bulgaria" 70 20 7 8 6 6 8;
            mkCity "Vienna" "Austria" 95 30 9 9 8 6 9]).
  - repeat constructor.
  - reflexivity.
Defined.

(** On an empty route the distance is [-300].  The script raises
    [ValueError] when "Nightlife" or "Culture" is selected ([max] of an
    empty list), and otherwise shows a page with that negative distance,
    totals of 0 and a transport cost of [-300 * price_km]. *)
Theorem plan_empty_route {F : Type} `{PyFloat F}
    (budget d : Z) (prios : list string) :
  converts_nonzero F -> budget <> 0 ->
  ("Nightlife" ∈ prios \/ "Culture" ∈ prios ->
   plan (F:=F) [] budget d prios = Raise ValueError) /\
  ("Nightlife" ∉ prios -> "Culture" ∉ prios ->
   exists page : Page (F:=F),
     plan [] budget d prios = Ok page /\
     km_total page = -300 /\
     hotel_total page = 0 /\ food_total page = 0 /\
     transport_cost page
       = (of_int (-300) * price_km (transport page))%py /\
     messages page
       = if decide ("Eco" ∈ prios /\ eco (transport page) < 5)
         then [eco_conflict] else []).
Proof.
  intros Hconv Hb.
  destruct (recommend_transport_total
              (mkProfile budget "normal" prios) (of_int (-300)))
    as (t & Hrec & Hopt).
  assert (Hspeed : fis_zero (of_int (speed t)) = false).
  { apply Hconv. apply elem_of_options in Hopt.
    destruct Hopt as [ -> | [ -> | [ -> | -> ]]]; discriminate. }
  assert (Hplan : plan (F:=F) [] budget d prios =
            (risk ← budget_risk (of_int (0 + 0) + cost t (of_int (-300)))%py
                      (of_int budget);
             messages ← insights [] prios t;
             Ok (mkPage (-300) t 0 (0 * d) [] 0 0 (cost t (of_int (-300)))
                   (of_int (-300) / of_int (speed t))%py
                   (of_int (0 + 0) + cost t (of_int (-300)))%py
                   risk messages))).
  { unfold plan. change ((Z.of_nat (length []) - 1) * DISTANCE_PER_SEGMENT)
      with (-300).
    rewrite Hrec. cbn [mbind result_bind].
    unfold city_cards. cbn [foldl mbind result_bind].
    unfold time, truediv. rewrite Hspeed. reflexivity. }
  rewrite Hplan, budget_risk_cases by now apply Hconv.
  cbn [mbind result_bind]. unfold insights. rewrite !contains_decide.
  split.
  - intros [Hn|Hc].
    + destruct (decide ("Nightlife" ∈ prios)); [reflexivity|contradiction].
    + destruct (decide ("Nightlife" ∈ prios)); [reflexivity|].
      destruct (decide ("Culture" ∈ prios)); [reflexivity|contradiction].
  - intros Hn Hc.
    destruct (decide ("Nightlife" ∈ prios)); [contradiction|].
    destruct (decide ("Culture" ∈ prios)); [contradiction|].
    cbn [mbind result_bind]. eexists. split; [reflexivity|].
    cbn [km_total hotel_total food_total transport_cost transport messages].
    repeat split.
    unfold eco_conflict.
    destruct (decide ("Eco" ∈ prios)), (Z.ltb_spec (eco t) 5); simpl;
      destruct (decide _) as [[? ?]|?]; try reflexivity;
      try lia; tauto.
Qed.

Lemma plan_empty_route_witness :
  plan (F:=spec_float) [] 3500 3 ["Eco"; "Culture"] = Raise ValueError.
Proof.
  apply (proj1 (plan_empty_route 3500 3 ["Eco"; "Culture"]
                  binary64_converts_nonzero ltac:(lia))).
  right. apply list_elem_of_further, list_elem_of_here.
Defined.

(** A budget of 0 makes the script raise [ZeroDivisionError] on every
    route of catalog cities: in exact arithmetic and in binary64. *)
Theorem plan_zero_budget :
  (forall (cities : list string) (cs : list City) (d : Z)
          (prios : list string),
     cities_of cities cs ->
     plan (F:=Q) cities 0 d prios = Raise ZeroDivisionError) /\
  (forall (cities : list string) (cs : list City) (d : Z)
          (prios : list string),
     cities_of cities cs ->
     plan (F:=spec_float) cities 0 d prios = Raise ZeroDivisionError).
Proof.
  split; intros cities cs d prios Hcs; unfold plan.
  - destruct (recommend_transport_total (F:=Q)
                (mkProfile 0 "normal" prios)
                (of_int ((Z.of_nat (length cities) - 1)
                         * DISTANCE_PER_SEGMENT)))
      as (t & Hrec & Hopt).
    rewrite Hrec. cbn [mbind result_bind].
    rewrite (city_cards_ok cities cs d Hcs). cbn [mbind result_bind].
    unfold time, truediv. rewrite (exact_converts_nonzero (speed t)).
    2:{ apply elem_of_options in Hopt.
        destruct Hopt as [ -> | [ -> | [ -> | -> ]]]; discriminate. }
    reflexivity.
  - destruct (recommend_transport_total (F:=spec_float)
                (mkProfile 0 "normal" prios)
                (of_int ((Z.of_nat (length cities) - 1)
                         * DISTANCE_PER_SEGMENT)))
      as (t & Hrec & Hopt).
    rewrite Hrec. cbn [mbind result_bind].
    rewrite (city_cards_ok cities cs d Hcs). cbn [mbind result_bind].
    unfold time, truediv. rewrite (binary64_converts_nonzero (speed t)).
    2:{ apply elem_of_options in Hopt.
        destruct Hopt as [ -> | [ -> | [ -> | -> ]]]; discriminate. }
    reflexivity.
Qed.

Lemma plan_zero_budget_witness :
  plan (F:=spec_float) ["Prague"; "Munich"] 0 2 [] = Raise ZeroDivisionError.
Proof.
  apply (proj2 plan_zero_budget ["Prague"; "Munich"]
           [mkCity "Prague" "Czech Republic" 85 25 8 8 9 7 9;
            mkCity "Munich" "Germany" 100 28 9 9 8 6 8]).
  repeat constructor.
Defined.

(** ** The budget alert *)

Lemma Qdiv_lt_iff (a b c : Q) : (0 < c)%Q -> (a / c < b <-> a < b * c)%Q.
Proof.
  intros Hc. split; intros Hlt.
  - assert (E : (a / c * c == a)%Q)
      by (field; intros E; rewrite E in Hc; now apply Qlt_irrefl in Hc).
    rewrite <- E. now apply Qmult_lt_compat_r.
  - now apply Qlt_shift_div_r.
Qed.

Lemma Qdiv_le_iff (a b c : Q) : (0 < c)%Q -> (a / c <= b <-> a <= b * c)%Q.
Proof.
  intros Hc. split; intros Hle.
  - assert (E : (a / c * c == a)%Q)
      by (field; intros E; rewrite E in Hc; now apply Qlt_irrefl in Hc).
    rewrite <- E. apply Qmult_le_compat_r; [exact Hle | now apply Qlt_le_weak].
  - now apply Qle_shift_div_r.
Qed.

(** [budget_risk] in exact arithmetic, with the ratio multiplied out. *)
Lemma budget_risk_exact (total budget : Q) :
  (0 < budget)%Q ->
  budget_risk total budget =
    Ok (if Qlt_le_dec total ((85 # 100) * budget) then "LOW"
        else if Qlt_le_dec budget total then "HIGH" else "MEDIUM").
Proof.
  intros Hb.
  assert (Hne : fis_zero budget = false).
  { simpl. destruct (Qeq_bool budget 0) eqn:E; [|reflexivity].
    apply Qeq_bool_iff in E. rewrite E in Hb. now apply Qlt_irrefl in Hb. }
  rewrite (budget_risk_cases total budget Hne).
  change (flt (fdiv total budget) (literal 85 2))
    with (Qltb (total / budget) (85 # 100)).
  change (fle (fdiv total budget) (literal 10 1))
    with (Qle_bool (total / budget) (10 # 10)).
  destruct (Qlt_le_dec total ((85 # 100) * budget)) as [Hlow|Hge].
  - apply (Qdiv_lt_iff _ _ _ Hb), Qltb_lt in Hlow. now rewrite Hlow.
  - assert (Hge' : Qltb (total / budget) (85 # 100) = false).
    { apply Qltb_ge. apply Qnot_lt_le. intros Hlt.
      apply (Qdiv_lt_iff _ _ _ Hb) in Hlt. now apply Qlt_not_le in Hlt. }
    rewrite Hge'.
    destruct (Qlt_le_dec budget total) as [Hhigh|Hle].
    + assert (Hgt : Qle_bool (total / budget) (10 # 10) = false).
      { apply Qle_bool_false. apply Qnot_le_lt. intros Hle.
        apply Qle_one, (Qdiv_le_iff _ _ _ Hb) in Hle.
        rewrite Qmult_1_l in Hle. now apply Qle_not_lt in Hle. }
      now rewrite Hgt.
    + assert (Hle' : Qle_bool (total / budget) (10 # 10) = true).
      { apply Qle_bool_iff, Qle_one, (Qdiv_le_iff _ _ _ Hb).
        now rewrite Qmult_1_l. }
      now rewrite Hle'.
Qed.






(** ** What the priorities can and cannot change *)

Lemma contains_ext (x : string) (p1 p2 : list string) :
  (x ∈ p1 <-> x ∈ p2) -> contains x p1 = contains x p2.
Proof. intros Hx. unfold contains. now apply bool_decide_ext. Qed.

Section Priorities.
Context {F : Type} `{PyFloat F}.

Lemma score_of_same_scoring (prof1 prof2 : TravelerProfile) (km : F)
    (t : Transport) :
  same_scoring (priorities prof1) (priorities prof2) ->
  score_of prof1 km t = score_of prof2 km t.
Proof.
  intros Hsame. unfold score_of.
  assert (Hlow : "Low cost" ∈ ["Low cost"; "Comfort"; "Eco"; "Fast"])
    by (rewrite !elem_of_cons; auto).
  assert (Hcomfort : "Comfort" ∈ ["Low cost"; "Comfort"; "Eco"; "Fast"])
    by (rewrite !elem_of_cons; auto).
  assert (Heco : "Eco" ∈ ["Low cost"; "Comfort"; "Eco"; "Fast"])
    by (rewrite !elem_of_cons; auto).
  assert (Hfast : "Fast" ∈ ["Low cost"; "Comfort"; "Eco"; "Fast"])
    by (rewrite !elem_of_cons; auto 6).
  rewrite (contains_ext "Low cost" _ _ (Hsame _ Hlow)).
  rewrite (contains_ext "Comfort" _ _ (Hsame _ Hcomfort)).
  rewrite (contains_ext "Eco" _ _ (Hsame _ Heco)).
  rewrite (contains_ext "Fast" _ _ (Hsame _ Hfast)).
  reflexivity.
Qed.

Lemma recommend_same_scoring (prof1 prof2 : TravelerProfile) (km : F) :
  same_scoring (priorities prof1) (priorities prof2) ->
  recommend_transport prof1 km = recommend_transport prof2 km.
Proof.
  intros Hsame. unfold recommend_transport.
  rewrite !scored_list_options. unfold options. simpl map.
  now rewrite !(score_of_same_scoring prof1 prof2 km _ Hsame).
Qed.

Lemma insights_same_members (cities p1 p2 : list string)
    (t : Transport (F:=F)) :
  (forall x, x ∈ p1 <-> x ∈ p2) ->
  insights cities p1 t = insights cities p2 t.
Proof.
  intros Hsame. unfold insights.
  now rewrite (contains_ext "Nightlife" _ _ (Hsame _)),
    (contains_ext "Culture" _ _ (Hsame _)),
    (contains_ext "Eco" _ _ (Hsame _)).
Qed.

Lemma plan_same_members (cities : list string) (budget d : Z)
    (p1 p2 : list string) :
  (forall x, x ∈ p1 <-> x ∈ p2) ->
  plan cities budget d p1 = plan cities budget d p2.
Proof.
  intros Hsame. unfold plan.
  rewrite (recommend_same_scoring (mkProfile budget "normal" p1)
             (mkProfile budget "normal" p2))
    by (intros x _; apply Hsame).
  destruct (recommend_transport _ _) as [t|e]; [|reflexivity].
  cbn [mbind result_bind].
  destruct (city_cards cities d) as [[[h f] cards]|e]; [|reflexivity].
  cbn [mbind result_bind].
  destruct (time t _) as [tt|e]; [|reflexivity].
  cbn [mbind result_bind].
  destruct (budget_risk _ _) as [r|e]; [|reflexivity].
  cbn [mbind result_bind].
  now rewrite (insights_same_members cities p1 p2 t Hsame).
Qed.

End Priorities.

(** The recommendation reads the profile only through the four scoring
    labels "Low cost", "Comfort", "Eco" and "Fast": two profiles that
    select the same of these get the same answer at every distance,
    whatever their budgets, their paces and their other priorities.  This
    holds in either arithmetic and also when the answer is an exception. *)
Theorem recommend_reads_scoring_labels {F : Type} `{PyFloat F}
    (prof1 prof2 : TravelerProfile) (km : F) :
  same_scoring (priorities prof1) (priorities prof2) ->
  recommend_transport prof1 km = recommend_transport prof2 km.
Proof.
  intros Hsame. unfold recommend_transport.
  rewrite !scored_list_options. unfold options. simpl map.
  now rewrite !(score_of_same_scoring prof1 prof2 km _ Hsame).
Qed.

Lemma recommend_reads_scoring_labels_witness :
  recommend_transport (mkProfile 3500 "normal" ["Eco"])
    (of_int (F:=spec_float) 900)
  = recommend_transport (mkProfile 500 "slow" ["Culture"; "Eco"; "Nightlife"])
      (of_int 900).
Proof.
  apply recommend_reads_scoring_labels.
  intros x Hx. cbn [priorities].
  repeat (apply elem_of_cons in Hx as [ -> |Hx];
          [rewrite !elem_of_cons, !elem_of_nil;
           split; intros Hy; try tauto;
           repeat (destruct Hy as [Hy|Hy]; try discriminate Hy; try tauto)|]).
  now apply elem_of_nil in Hx.
Defined.

(** The page depends on which priorities are selected, not on the order
    in which they were selected nor on repetitions: priority lists with
    the same members give the same run of the script, in either
    arithmetic. *)
Theorem main_priority_order {F : Type} `{PyFloat F}
    (route_name : string) (budget d : Z) (p1 p2 : list string) :
  (forall x, x ∈ p1 <-> x ∈ p2) ->
  main (F:=F) route_name budget d p1 = main route_name budget d p2.
Proof.
  intros Hsame. unfold main.
  destruct (getitem ROUTES route_name) as [cities|e]; [|reflexivity].
  cbn [mbind result_bind]. now apply plan_same_members.
Qed.

Lemma main_priority_order_witness :
  main (F:=spec_float) "Balkan Core" 3500 3 ["Eco"; "Fast"]
  = main "Balkan Core" 3500 3 ["Fast"; "Eco"; "Fast"].
Proof.
  apply main_priority_order.
  intros x. rewrite !elem_of_cons, !elem_of_nil. tauto.
Defined.

(** ** The city score is exact *)

Lemma round_half_even_int (q : Q) (m : Z) :
  (q == inject_Z m)%Q -> round_half_even q = m.
Proof.
  intros E. unfold round_half_even.
  assert (Ef : Qfloor q = m) by (rewrite E; apply Qfloor_Z).
  rewrite Ef.
  assert (Hlt : (q - inject_Z m < 1 # 2)%Q) by (rewrite E; lra).
  pose proof (proj1 (Qlt_alt _ _) Hlt) as Hc.
  destruct (q - inject_Z m ?= 1 # 2)%Q; congruence.
Qed.

Lemma score_quarters (c : City) :
  (score (F:=Q) c
   == inject_Z (safety c + internet c + walkability c + culture c) / 4)%Q.
Proof.
  unfold score. cbn [fround fdiv of_int exact]. unfold Qround_ndigits.
  set (s := safety c + internet c + walkability c + culture c).
  rewrite (round_half_even_int _ (25 * s)).
  - rewrite (Qmake_Qdiv (25 * s) (pow10 2)), inject_Z_mult.
    change (inject_Z (Z.pos (pow10 2))) with 100%Q.
    change (inject_Z 25) with 25%Q. field.
  - rewrite inject_Z_mult.
    change (inject_Z (Z.pos (pow10 2))) with 100%Q.
    change (inject_Z 25) with 25%Q. change (inject_Z 4) with 4%Q. field.
Qed.

(** Rounding to 2 decimals never changes a city score: whatever the four
    ratings of a record, the score is their mean itself, since a quarter
    of an integer has at most 2 decimals (exact arithmetic). *)
Theorem score_needs_no_rounding (c : City) :
  (score (F:=Q) c
   == mean [safety c; internet c; walkability c; culture c])%Q.
Proof.
  rewrite score_quarters. unfold mean, Zsum. simpl.
  change (inject_Z 4) with 4%Q.
  now replace (safety c + (internet c + (walkability c + (culture c + 0))))
    with (safety c + internet c + walkability c + culture c) by lia.
Qed.

(** A score lies between the least and the greatest of the four ratings
    it averages: with ratings on the scale [lo .. hi] (0 to 10 on the
    cards) the score is on that scale too. *)
Theorem score_on_the_scale (c : City) (lo hi : Z) :
  lo <= safety c <= hi -> lo <= internet c <= hi ->
  lo <= walkability c <= hi -> lo <= culture c <= hi ->
  (inject_Z lo <= score (F:=Q) c <= inject_Z hi)%Q.
Proof.
  intros Hs Hi Hw Hc. rewrite score_quarters.
  set (s := safety c + internet c + walkability c + culture c).
  assert (H1 : (inject_Z (4 * lo) <= inject_Z s)%Q)
    by (rewrite <- Zle_Qle; unfold s; lia).
  assert (H2 : (inject_Z s <= inject_Z (4 * hi))%Q)
    by (rewrite <- Zle_Qle; unfold s; lia).
  rewrite inject_Z_mult in H1, H2. change (inject_Z 4) with 4%Q in H1, H2.
  split.
  - apply Qle_shift_div_l; [reflexivity|]. lra.
  - apply Qle_shift_div_r; [reflexivity|]. lra.
Qed.

Lemma score_on_the_scale_witness :
  (inject_Z 0 <= score (F:=Q) (mkCity "Vienna" "Austria" 95 30 9 9 8 6 9)
   <= inject_Z 10)%Q.
Proof. apply score_on_the_scale; simpl; lia. Defined.

(** ** Which mode wins *)

Lemma contains_true (x : string) (l : list string) :
  contains x l = true <-> x ∈ l.
Proof. apply bool_decide_eq_true. Qed.

Lemma contains_false (x : string) (l : list string) :
  contains x l = false <-> x ∉ l.
Proof. apply bool_decide_eq_false. Qed.










(** ** The recommendation on the page *)

(** The recommendation of binary64 at the three distances of the catalog,
    for each choice of the four scoring priorities. *)
Lemma recommend_binary64_table (profile : TravelerProfile) (km : Z) :
  km ∈ [600; 900; 1500] ->
  recommend_transport (F:=spec_float) profile (of_int km)
  = Ok (if contains "Eco" (priorities profile) then Train
        else if contains "Comfort" (priorities profile)
                || contains "Fast" (priorities profile)
             then if contains "Low cost" (priorities profile)
                     && negb (contains "Fast" (priorities profile))
                     && (600 <? km)
                  then Train else Plane
             else if contains "Low cost" (priorities profile) then Bus
                  else Car).
Proof.
  intros Hkm. unfold recommend_transport, scored_list, score_of.
  destruct (contains "Low cost" (priorities profile)),
    (contains "Comfort" (priorities profile)),
    (contains "Eco" (priorities profile)),
    (contains "Fast" (priorities profile));
    repeat (apply elem_of_cons in Hkm as [ -> |Hkm]; [vm_compute; reflexivity|]);
    now apply elem_of_nil in Hkm.
Qed.

(** What the page recommends, as CPython computes it in binary64, for
    every route of the catalog and every selection of priorities: the
    train whenever "Eco" is selected; otherwise the plane under "Comfort"
    or "Fast", except that "Low cost" with "Comfort" and without "Fast"
    gives the train on the routes longer than 600 km; otherwise the bus
    under "Low cost"; and the car when no scoring priority is selected. *)
Theorem page_recommendation (route_name : string) (budget days_city : Z)
    (prios : list string) (page : Page (F:=spec_float)) :
  main route_name budget days_city prios = Ok page ->
  ("Eco" ∈ prios -> transport page = Train) /\
  (("Eco" ∉ prios) -> "Comfort" ∈ prios \/ "Fast" ∈ prios ->
   transport page =
     if decide ("Low cost" ∈ prios /\ ("Fast" ∉ prios)
                /\ 600 < km_total page)
     then Train else Plane) /\
  (("Eco" ∉ prios) -> ("Comfort" ∉ prios) ->
   ("Fast" ∉ prios) -> "Low cost" ∈ prios ->
   transport page = Bus) /\
  (("Eco" ∉ prios) -> ("Comfort" ∉ prios) ->
   ("Fast" ∉ prios) -> ("Low cost" ∉ prios) ->
   transport page = Car).
Proof.
  unfold main. intros Hmain.
  apply bind_Ok_inv in Hmain as (cities & Hget & Hplan).
  unfold getitem in Hget.
  destruct (ROUTES !! route_name) as [cities'|] eqn:Hr; [|discriminate].
  injection Hget as ->.
  pose proof (ROUTES_distance _ _ Hr) as Hkm.
  assert (Hkmp : km_total page
                 = (Z.of_nat (length cities) - 1) * DISTANCE_PER_SEGMENT).
  { unfold plan in Hplan.
    apply bind_Ok_inv in Hplan as (t & _ & Hplan).
    apply bind_Ok_inv in Hplan as ([[h f] cards] & _ & Hplan).
    apply bind_Ok_inv in Hplan as (tt & _ & Hplan).
    apply bind_Ok_inv in Hplan as (r & _ & Hplan).
    apply bind_Ok_inv in Hplan as (m & _ & Hplan).
    now injection Hplan as <-. }
  destruct (plan_inv _ _ _ _ _ Hplan) as [Hrec _].
  rewrite (recommend_binary64_table _ _ Hkm) in Hrec.
  cbn [priorities] in Hrec.
  injection Hrec as Hrec. rewrite <- Hrec, Hkmp. clear Hrec Hplan Hkmp.
  set (km := (Z.of_nat (length cities) - 1) * DISTANCE_PER_SEGMENT) in *.
  rewrite !contains_decide.
  repeat split; intros;
    repeat case_decide; cbn [orb andb negb];
    try reflexivity; try tauto;
    destruct (Z.ltb_spec 600 km); try reflexivity; exfalso;
    try tauto; destruct_and?; lia.
Qed.

Lemma page_recommendation_witness :
  exists page : Page (F:=spec_float),
    main "Grand Explorer" 500 7 ["Eco"; "Low cost"] = Ok page /\
    transport page = Train.
Proof.
  assert (Hrun : exists page : Page (F:=spec_float),
             main "Grand Explorer" 500 7 ["Eco"; "Low cost"] = Ok page)
    by (vm_compute; eexists; reflexivity).
  destruct Hrun as [page Hpage]. exists page. split; [exact Hpage|].
  apply (page_recommendation _ _ _ _ _ Hpage). apply list_elem_of_here.
Defined.

(** ** The cards and the totals of a run *)

(** In the catalog every city is filed under its own name, and no price
    is negative. *)
Lemma cities_of_catalog (cities : list string) (cs : list City) :
  cities_of cities cs ->
  map city_name cs = cities /\
  Forall (fun c => 0 <= hotel c /\ 0 <= food c) cs.
Proof.
  induction 1 as [|c city cities cs Hc _ [IHn IHp]]; [split; constructor|].
  apply CITIES_lookup in Hc.
  assert (Hcity : city_name city = c /\ 0 <= hotel city /\ 0 <= food city).
  { repeat (apply elem_of_cons in Hc as [[= -> ->]|Hc];
            [simpl; repeat split; lia|]).
    now apply elem_of_nil in Hc. }
  destruct Hcity as (Hn & Hp). split.
  - simpl. now rewrite Hn, IHn.
  - now constructor.
Qed.

Section Totals.
Context {F : Type} `{PyFloat F}.

(** What a finished run of [plan] has computed. *)
Lemma plan_Ok_inv (cities : list string) (cs : list City) (budget d : Z)
    (prios : list string) (page : Page) :
  cities_of cities cs ->
  plan cities budget d prios = Ok page ->
  let km := (Z.of_nat (length cities) - 1) * DISTANCE_PER_SEGMENT in
  let hotels := Zsum (map (fun c => hotel c * d) cs) in
  let foods := Zsum (map (fun c => food c * d) cs) in
  km_total page = km /\
  recommend_transport (mkProfile budget "normal" prios) (of_int km)
    = Ok (transport page) /\
  n_cities page = Z.of_nat (length cities) /\
  cards page = map (fun c => (city_name c, score c)) cs /\
  hotel_total page = hotels /\
  food_total page = foods /\
  total_cost page
    = (of_int (hotels + foods) + of_int km * price_km (transport page))%py /\
  budget_risk (total_cost page) (of_int budget) = Ok (risk page).
Proof.
  intros Hcs Hplan km hotels foods. unfold plan in Hplan. fold km in Hplan.
  apply bind_Ok_inv in Hplan as (t & Hrec & Hplan).
  rewrite (city_cards_ok cities cs d Hcs) in Hplan.
  cbn [mbind result_bind] in Hplan. fold hotels foods in Hplan.
  apply bind_Ok_inv in Hplan as (tt & _ & Hplan).
  apply bind_Ok_inv in Hplan as (r & Hrisk & Hplan).
  apply bind_Ok_inv in Hplan as (msgs & _ & Hplan).
  injection Hplan as <-. cbn. repeat split; assumption.
Qed.

Lemma main_Ok_inv (route_name : string) (budget d : Z) (prios : list string)
    (page : Page) :
  main route_name budget d prios = Ok page ->
  exists (cities : list string) (cs : list City),
    ROUTES !! route_name = Some cities /\ cities_of cities cs /\
    plan cities budget d prios = Ok page.
Proof.
  unfold main. intros Hmain.
  apply bind_Ok_inv in Hmain as (cities & Hget & Hplan).
  unfold getitem in Hget.
  destruct (ROUTES !! route_name) as [cities'|] eqn:Hr; [|discriminate].
  injection Hget as ->.
  destruct (ROUTES_cities _ _ Hr) as (_ & cs & Hcs).
  now exists cities, cs.
Qed.

End Totals.

(** A finished run shows one card per city of the route, in the order of
    the route, each under the name the route lists the city by; the
    "Cities" metric counts these cards.  This holds in either
    arithmetic. *)
Theorem cards_follow_route {F : Type} `{PyFloat F}
    (route_name : string) (budget days_city : Z) (prios : list string)
    (page : Page (F:=F)) :
  main route_name budget days_city prios = Ok page ->
  ROUTES !! route_name = Some (map fst (cards page)) /\
  n_cities page = Z.of_nat (length (cards page)).
Proof.
  intros (cities & cs & Hr & Hcs & Hplan)%main_Ok_inv.
  destruct (plan_Ok_inv _ _ _ _ _ _ Hcs Hplan)
    as (_ & _ & Hn & Hcards & _).
  destruct (cities_of_catalog _ _ Hcs) as [Hnames _].
  assert (Hfst : map fst (map (fun c => (city_name c, score (F:=F) c)) cs)
                 = cities) by (rewrite map_map; exact Hnames).
  rewrite Hcards, Hn, Hfst. split; [exact Hr|].
  now rewrite <- Hnames, !length_map.
Qed.

Lemma cards_follow_route_witness :
  exists page : Page (F:=spec_float),
    main "Central Europe" 3500 3 ["Fast"] = Ok page /\
    ROUTES !! "Central Europe" = Some (map fst (cards page)) /\
    n_cities page = Z.of_nat (length (cards page)).
Proof.
  assert (Hrun : exists page : Page (F:=spec_float),
             main "Central Europe" 3500 3 ["Fast"] = Ok page)
    by (vm_compute; eexists; reflexivity).
  destruct Hrun as [page Hpage]. exists page. split; [exact Hpage|].
  exact (cards_follow_route _ _ _ _ _ Hpage).
Defined.

(** ** Totals in exact arithmetic *)




Lemma recommended_option (profile : TravelerProfile) (km : Q) (t : Transport) :
  recommend_transport profile km = Ok t -> t ∈ options.
Proof.
  intros Hrec. destruct (recommend_transport_total profile km) as (t' & Ht' & Hin).
  rewrite Hrec in Ht'. now injection Ht' as ->.
Qed.



(** ** The range of the total *)

(** What a day costs on each route of the catalog, hotels and food of all
    its cities together, and how long the route is. *)
Lemma ROUTES_daily (name : string) (cities : list string) (cs : list City) :
  ROUTES !! name = Some cities -> cities_of cities cs ->
  exists per_day km : Z,
    (per_day, km) ∈ [(275, 600); (461, 900); (638, 1500)] /\
    (Z.of_nat (length cities) - 1) * DISTANCE_PER_SEGMENT = km /\
    forall d : Z,
      Zsum (map (fun c => hotel c * d) cs)
      + Zsum (map (fun c => food c * d) cs) = per_day * d.
Proof.
  intros Hr Hcs. apply ROUTES_lookup in Hr. unfold cities_of in Hcs.
  apply elem_of_cons in Hr as [[= _ ->]|Hr]; [exists 275, 600|].
  2: apply elem_of_cons in Hr as [[= _ ->]|Hr]; [exists 461, 900|].
  3: apply elem_of_cons in Hr as [[= _ ->]|Hr]; [exists 638, 1500|].
  4: now apply elem_of_nil in Hr.
  all: repeat (apply Forall2_cons_inv_l in Hcs as (? & ? & Hc & Hcs & ->);
               vm_compute in Hc; injection Hc as <-);
    apply Forall2_nil_inv_l in Hcs as ->;
    (split; [rewrite !elem_of_cons; auto|]);
    (split; [reflexivity|intros d; simpl; lia]).
Qed.

(** Whatever the sidebar hands over, the total of the page lies between
    347 (three cities, one day each, by bus) and 5141 (six cities, seven
    days each, by plane), in exact arithmetic and in binary64 alike.  In
    exact arithmetic a budget of 6049 or more therefore always shows the
    risk LOW. *)
Theorem total_cost_range (route_name : string) (budget days_city : Z)
    (prios : list string) :
  valid_sidebar route_name budget days_city prios ->
  (forall page : Page (F:=Q),
     main route_name budget days_city prios = Ok page ->
     (347 <= total_cost page <= 5141)%Q /\
     (6049 <= budget -> risk page = "LOW")) /\
  (forall page : Page (F:=spec_float),
     main route_name budget days_city prios = Ok page ->
     B64.le (of_int 347) (total_cost page) /\
     B64.le (total_cost page) (of_int 5141)).
Proof.
  intros (_ & Hb & Hd & _). split.
  - intros page (cities & cs & Hr & Hcs & Hplan)%main_Ok_inv.
    destruct (plan_Ok_inv _ _ _ _ _ _ Hcs Hplan)
      as (_ & Hrec & _ & _ & _ & _ & Htot & Hrisk).
    apply recommended_option in Hrec.
    destruct (ROUTES_daily _ _ _ Hr Hcs) as (per_day & km & Hpk & Hkm & Hday).
    rewrite Hday, Hkm in Htot.
    change (@of_int Q exact) with inject_Z in *.
    change (@fadd Q exact) with Qplus in *.
    change (@fmul Q exact) with Qmult in *.
    assert (Hrange : (347 <= total_cost page <= 5141)%Q).
    { rewrite Htot, inject_Z_mult.
      assert (Hd1 : (inject_Z 1 <= inject_Z days_city)%Q)
        by (rewrite <- Zle_Qle; lia).
      assert (Hd7 : (inject_Z days_city <= inject_Z 7)%Q)
        by (rewrite <- Zle_Qle; lia).
      set (q := inject_Z days_city) in *.
      change (inject_Z 1) with 1%Q in Hd1. change (inject_Z 7) with 7%Q in Hd7.
      apply elem_of_options in Hrec.
      repeat (apply elem_of_cons in Hpk as [[= -> ->]|Hpk];
              [destruct Hrec as [ -> | [ -> | [ -> | -> ]]];
               cbn; qconst; lra|]).
      now apply elem_of_nil in Hpk. }
    split; [exact Hrange|]. intros Hample.
    assert (Hpos : (0 < inject_Z budget)%Q)
      by (change 0%Q with (inject_Z 0); rewrite <- Zlt_Qlt; lia).
    rewrite (budget_risk_exact _ _ Hpos) in Hrisk.
    injection Hrisk as <-.
    assert (Hq : (inject_Z 6049 <= inject_Z budget)%Q)
      by (rewrite <- Zle_Qle; lia).
    change (inject_Z 6049) with 6049%Q in Hq.
    destruct (Qlt_le_dec _ _) as [Hlow|Hge]; [reflexivity|].
    exfalso. lra.
  - intros page (cities & cs & Hr & Hcs & Hplan)%main_Ok_inv.
    destruct (plan_Ok_inv _ _ _ _ _ _ Hcs Hplan)
      as (_ & Hrec & _ & _ & _ & _ & Htot & _).
    destruct (recommend_transport_total
                (mkProfile budget "normal" prios)
                (of_int ((Z.of_nat (length cities) - 1) * DISTANCE_PER_SEGMENT)))
      as (t & Hrec' & Hopt).
    rewrite Hrec in Hrec'. injection Hrec' as Ht. rewrite Ht in Htot.
    destruct (ROUTES_daily _ _ _ Hr Hcs) as (per_day & km & Hpk & Hkm & Hday).
    rewrite Hday, Hkm in Htot. rewrite Htot. clear Htot Hplan Ht Hrec Hkm.
    apply elem_of_options in Hopt.
    assert (Hdays : days_city ∈ [1; 2; 3; 4; 5; 6; 7])
      by (rewrite !elem_of_cons; lia).
    repeat (apply elem_of_cons in Hpk as [[= -> ->]|Hpk];
            [destruct Hopt as [ -> | [ -> | [ -> | -> ]]];
             repeat (apply elem_of_cons in Hdays as [ -> |Hdays];
                     [split; vm_compute; reflexivity|]);
             now apply elem_of_nil in Hdays|]).
    now apply elem_of_nil in Hpk.
Qed.

Lemma total_cost_range_witness :
  (forall page : Page (F:=Q),
     main "Grand Explorer" 6049 7 ["Fast"] = Ok page ->
     (347 <= total_cost page <= 5141)%Q /\
     (6049 <= 6049 -> risk page = "LOW")) /\
  (forall page : Page (F:=spec_float),
     main "Grand Explorer" 6049 7 ["Fast"] = Ok page ->
     B64.le (of_int 347) (total_cost page) /\
     B64.le (total_cost page) (of_int 5141)).
Proof.
  apply (total_cost_range "Grand Explorer" 6049 7 ["Fast"]).
  split; [eexists; reflexivity|]. split; [lia|]. split; [lia|]. split.
  - apply (bool_decide_unpack (NoDup ["Fast"])). vm_compute. exact I.
  - intros x Hx. apply list_elem_of_singleton in Hx as ->.
    unfold vocabulary. rewrite !elem_of_cons. auto 10.
Defined.
